(** * AR0144 image sensor driver (drivers/media/i2c/ar0144.c)

    A shallow embedding of the driver's control paths: the two register
    transport primitives, the register-array runner, the power and stream
    sequencers, the pad format and selection accessors and the probe
    routine, together with the properties of them that the design
    document states.

    The kernel services the driver calls (the I2C core, the GPIO consumer
    API, msleep, the device log, the mutex) are not part of the driver.
    The I2C adapter is a parameter of the development; the other calls
    are recorded, in program order, in a trace. *)

From Stdlib Require Import ZArith List Bool Lia.
Import ListNotations.
Local Open Scope Z_scope.

(** ** Machine integers *)

(** Conversion to [u8] and [u16], as done by an assignment to an object of
    that type. *)
Definition u8 (x : Z) : Z := x mod 2 ^ 8.
Definition u16 (x : Z) : Z := x mod 2 ^ 16.

Definition is_u8 (x : Z) : Prop := 0 <= x < 2 ^ 8.
Definition is_u16 (x : Z) : Prop := 0 <= x < 2 ^ 16.

(** ** Constants *)

Definition AR0144_I2C_ADDR : Z := 0x10.
Definition AR0144_ID_REG : Z := 0x3000.
Definition AR0144_ID_VAL : Z := 0x1356.

(** Kernel constants the driver names; the values are those of the kernel
    headers the file includes (errno-base.h, errno.h, media-bus-format.h,
    videodev2.h, v4l2-common.h, v4l2-subdev.h). *)
Definition ENOMEM : Z := 12.
Definition ENODEV : Z := 19.
Definition EINVAL : Z := 22.
Definition EPROBE_DEFER : Z := 517.
Definition MEDIA_BUS_FMT_SRGGB12_1X12 : Z := 0x3012.
Definition V4L2_FIELD_NONE : Z := 1.
Definition V4L2_COLORSPACE_SRGB : Z := 8.
Definition V4L2_SEL_TGT_CROP : Z := 0.
Definition V4L2_SUBDEV_FORMAT_TRY : Z := 0.
Definition V4L2_SUBDEV_FORMAT_ACTIVE : Z := 1.

Inductive v4l2_mbus_type :=
| V4L2_MBUS_PARALLEL
| V4L2_MBUS_BT656
| V4L2_MBUS_CSI1
| V4L2_MBUS_CCP2
| V4L2_MBUS_CSI2.

(** ** Data *)

Record ar0144_reg_value := mk_reg { reg : Z; val : Z }.

Record v4l2_mbus_framefmt := mk_framefmt {
  fmt_width : Z;
  fmt_height : Z;
  fmt_code : Z;
  fmt_field : Z;
  fmt_colorspace : Z;
  fmt_ycbcr_enc : Z;
  fmt_quantization : Z;
  fmt_xfer_func : Z
}.

Record v4l2_rect := mk_rect {
  rect_left : Z;
  rect_top : Z;
  rect_width : Z;
  rect_height : Z
}.

Record v4l2_subdev_pad_config := mk_pad_config {
  try_fmt : v4l2_mbus_framefmt;
  try_crop : v4l2_rect;
  try_compose : v4l2_rect
}.

Record v4l2_subdev_format := mk_subdev_format {
  sf_which : Z;
  sf_pad : Z;
  sf_format : v4l2_mbus_framefmt
}.

Record v4l2_subdev_selection := mk_subdev_selection {
  sel_which : Z;
  sel_pad : Z;
  sel_target : Z;
  sel_flags : Z;
  sel_r : v4l2_rect
}.

(** The members of [struct ar0144] that hold data of the driver's own.
    The handles ([i2c_client], [dev], [sd], [pad], [ep], [rst_gpio],
    [lock]) stand for kernel objects; the calls made through them are
    events of the trace. *)
Record ar0144 := mk_ar0144 {
  fmt : v4l2_mbus_framefmt;
  crop : v4l2_rect;
  streaming : bool
}.

Definition framefmt_zero : v4l2_mbus_framefmt := mk_framefmt 0 0 0 0 0 0 0 0.
Definition rect_zero : v4l2_rect := mk_rect 0 0 0 0.

(** What [devm_kzalloc] hands to probe: every member zero. *)
Definition ar0144_kzalloc : ar0144 := mk_ar0144 framefmt_zero rect_zero false.

(** ** Register tables *)

Definition rv (r v : Z) : ar0144_reg_value := mk_reg r v.

Definition ar0144at_rev4_recommended_setting : list ar0144_reg_value :=
  [ rv 0x3ED6 0x3CB5; rv 0x3ED8 0x8765; rv 0x3EDA 0x8888; rv 0x3EDC 0x97FF;
    rv 0x3EF8 0x6522; rv 0x3EFA 0x2222; rv 0x3EFC 0x6666; rv 0x3F00 0xAA05;
    rv 0x3EE2 0x180E; rv 0x3EE4 0x0808; rv 0x3EEA 0x2A09; rv 0x3060 0x000D;
    rv 0x3092 0x00CF; rv 0x3268 0x0030; rv 0x3786 0x0060; rv 0x3F4A 0x0F70;
    rv 0x306E 0x4810; rv 0x3064 0x1802; rv 0x3EF6 0x804D; rv 0x3180 0xC08F;
    rv 0x30BA 0x7623; rv 0x3176 0x0480; rv 0x3178 0x0480; rv 0x317A 0x0480;
    rv 0x317C 0x0480 ].

Definition ar0144at_pll_27mhz : list ar0144_reg_value :=
  [ rv 0x302A 0x0006; rv 0x302C 0x0001; rv 0x302E 0x0004; rv 0x3030 0x0042;
    rv 0x3036 0x000C; rv 0x3038 0x0001 ].

Definition ar0144at_mipi_2lane_12bit : list ar0144_reg_value :=
  [ rv 0x31AE 0x0202; rv 0x31AC 0x0C0C; rv 0x31B0 0x0042; rv 0x31B2 0x002E;
    rv 0x31B4 0x1665; rv 0x31B6 0x110E; rv 0x31B8 0x2047; rv 0x31BA 0x0105;
    rv 0x31BC 0x0004 ].

Definition ar0144at_1280x800_60fps : list ar0144_reg_value :=
  [ rv 0x3002 0x0000; rv 0x3004 0x0004; rv 0x3006 0x031F; rv 0x3008 0x0503;
    rv 0x300A 0x0339; rv 0x300C 0x05D0; rv 0x3012 0x0064; rv 0x30A2 0x0001;
    rv 0x30A6 0x0001; rv 0x3040 0x0000 ].

Definition ar0144at_context_b_2x2_binning : list ar0144_reg_value :=
  [ rv 0x3040 0x1000; rv 0x30A8 0x0003; rv 0x3040 0x3000; rv 0x30AE 0x0003 ].

Definition ar0144at_embedded_data_stats : list ar0144_reg_value :=
  [ rv 0x3064 0x1982 ].

Definition ar0144at_start_stream : list ar0144_reg_value :=
  [ rv 0x3028 0x0010; rv 0x301A 0x005C ].

Definition ar0144at_stop_stream : list ar0144_reg_value :=
  [ rv 0x301A 0x0058 ].

(** ** Trace of kernel calls *)

(** The arguments of the driver's [dev_err] calls, one constructor per
    format string. *)
Inductive err_msg :=
| write_reg_error (ret reg val : Z)
| read_reg_write_error (ret reg : Z)
| read_reg_read_error (ret reg : Z)
| wrong_chip_id (reg_val expected : Z)
| endpoint_node_not_found
| parsing_endpoint_node_failed
| invalid_bus_type
| cannot_get_reset_gpio
| could_not_register_media_entity
| could_not_power_up
| could_not_register_v4l2_device.

Inductive event :=
| EvMutexLock
| EvMutexUnlock
| EvGpiodDirectionOutput (value : Z)
| EvGpiodSetValueCansleep (value : Z)
| EvMsleep (msecs : Z)
| EvI2cMasterSend (buf : list Z)
| EvI2cMasterRecv (count : Z)
| EvDevErr (m : err_msg)
| EvDevInfoDetected
| EvMediaEntityCleanup.

(** The 4-byte frame [ar0144_write_reg] builds in [regbuf]. *)
Definition write_frame (r v : Z) : list Z :=
  [ u8 (Z.shiftr r 8); u8 (Z.land r 0xff);
    u8 (Z.shiftr v 8); u8 (Z.land v 0xff) ].

(** The 2-byte address [ar0144_read_reg] builds in [buf]. *)
Definition addr_frame (r : Z) : list Z :=
  [ u8 (Z.shiftr r 8); u8 (Z.land r 0xff) ].

Definition frame_of (s : ar0144_reg_value) : list Z :=
  write_frame (reg s) (val s).

Definition frames_of (settings : list ar0144_reg_value) : list (list Z) :=
  map frame_of settings.

(** The register writes a trace holds: the buffers of its 4-byte sends. *)
Fixpoint register_writes (tr : list event) : list (list Z) :=
  match tr with
  | [] => []
  | EvI2cMasterSend buf :: tr' =>
      if (Z.of_nat (length buf) =? 4) then buf :: register_writes tr'
      else register_writes tr'
  | _ :: tr' => register_writes tr'
  end.

(** The 16-bit word whose high byte is the first cell of a [u8] buffer and
    whose low byte is the second. *)
Definition be16 (buf : list Z) : Z :=
  (nth 0 buf 0 mod 256) * 256 + nth 1 buf 0 mod 256.

(** Is the event a bus transaction? *)
Definition is_bus_event (e : event) : bool :=
  match e with
  | EvI2cMasterSend _ | EvI2cMasterRecv _ => true
  | _ => false
  end.

Section Driver.

(** ** The I2C adapter

    [Bus] is the state of the adapter and of the chip behind it.
    [i2c_master_send b buf] is the [int] the call returns (the byte
    count, or a negative errno) and the next state;
    [i2c_master_recv b buf count] also gives the buffer as the call
    leaves it. *)
Variable Bus : Type.
Variable i2c_master_send : Bus -> list Z -> Z * Bus.
Variable i2c_master_recv : Bus -> list Z -> Z -> Z * list Z * Bus.

(** The adapter takes every buffer of [bufs], one send after the other,
    with a non-negative return. *)
Fixpoint bus_accepts (b : Bus) (bufs : list (list Z)) : bool :=
  match bufs with
  | [] => true
  | buf :: rest =>
      let '(r, b') := i2c_master_send b buf in
      (0 <=? r) && bus_accepts b' rest
  end.

(** The adapter's state after those sends. *)
Fixpoint bus_after (b : Bus) (bufs : list (list Z)) : Bus :=
  match bufs with
  | [] => b
  | buf :: rest => bus_after (snd (i2c_master_send b buf)) rest
  end.

(** What a read transaction at [reg] gets from the adapter: the buffer
    and the next state when the address send and the receive both have a
    non-negative return, nothing otherwise. *)
Definition bus_reads (b : Bus) (reg : Z) : option (list Z * Bus) :=
  let '(r1, b1) := i2c_master_send b (addr_frame reg) in
  if r1 <? 0 then None
  else
    let '(r2, buf, b2) := i2c_master_recv b1 (addr_frame reg) 2 in
    if r2 <? 0 then None else Some (buf, b2).

(** ** State and effects *)

Record world := mk_world {
  dev : ar0144;
  i2c : Bus;
  trace : list event
}.

(** A call returns, or dereferences a null pointer. *)
Inductive result (A : Type) :=
| Done (a : A) (w : world)
| Oops (w : world).
Arguments Done {A} a w.
Arguments Oops {A} w.

Definition M (A : Type) : Type := world -> result A.

Definition pure {A} (a : A) : M A := fun w => Done a w.

Definition bind {A B} (m : M A) (k : A -> M B) : M B :=
  fun w =>
    match m w with
    | Done a w' => k a w'
    | Oops w' => Oops w'
    end.

Notation "x <- m ;; k" := (bind m (fun x => k))
  (at level 61, m at next level, right associativity).
Notation "m ;;; k" := (bind m (fun _ => k))
  (at level 61, right associativity).

Definition emit (e : event) : M unit :=
  fun w => Done tt (mk_world (dev w) (i2c w) (trace w ++ [e])).

Definition master_send (buf : list Z) : M Z :=
  fun w =>
    let '(r, b') := i2c_master_send (i2c w) buf in
    Done r (mk_world (dev w) b' (trace w ++ [EvI2cMasterSend buf])).

Definition master_recv (buf : list Z) (count : Z) : M (Z * list Z) :=
  fun w =>
    let '(r, buf', b') := i2c_master_recv (i2c w) buf count in
    Done (r, buf') (mk_world (dev w) b' (trace w ++ [EvI2cMasterRecv count])).

Definition get_dev : M ar0144 := fun w => Done (dev w) w.

Definition put_dev (d : ar0144) : M unit :=
  fun w => Done tt (mk_world d (i2c w) (trace w)).

Definition null_dereference {A} : M A := fun w => Oops w.

(** ** Register transport *)

Definition ar0144_write_reg (reg val : Z) : M Z :=
  let regbuf := [ u8 (Z.shiftr reg 8); u8 (Z.land reg 0xff);
                  u8 (Z.shiftr val 8); u8 (Z.land val 0xff) ] in
  ret <- master_send regbuf ;;
  (if ret <? 0 then emit (EvDevErr (write_reg_error ret reg val))
   else pure tt) ;;;
  pure ret.

(** [val0] is what [*val] holds at the call; the second component of
    the result is what it holds at the return. *)
Definition ar0144_read_reg (reg : Z) (val0 : Z) : M (Z * Z) :=
  let buf := [ u8 (Z.shiftr reg 8); u8 (Z.land reg 0xff) ] in
  ret <- master_send buf ;;
  if ret <? 0 then
    emit (EvDevErr (read_reg_write_error ret reg)) ;;;
    pure (ret, val0)
  else
    rb <- master_recv buf 2 ;;
    let '(ret, buf) := rb in
    if ret <? 0 then
      emit (EvDevErr (read_reg_read_error ret reg)) ;;;
      pure (ret, val0)
    else
      let val := u16 (Z.shiftl (nth 0 buf 0) 8) in
      let val := u16 (Z.lor val (Z.land (nth 1 buf 0) 0xff)) in
      pure (0, val).

(** ** Register program runner

    The pair ([settings], [num_settings]) of the source is the list:
    every caller passes a table and its [ARRAY_SIZE]. *)
Fixpoint ar0144_set_register_array (settings : list ar0144_reg_value) : M Z :=
  match settings with
  | [] => pure 0
  | s :: settings' =>
      ret <- ar0144_write_reg (reg s) (val s) ;;
      if ret <? 0 then pure ret
      else ar0144_set_register_array settings'
  end.

(** ** Power and reset sequencer *)

Definition ar0144_s_power (on : Z) : M Z :=
  emit EvMutexLock ;;;
  emit (EvGpiodDirectionOutput 1) ;;;
  ret <-
    (if on =? 0 then pure 0
     else
       emit (EvMsleep 2) ;;;
       emit (EvGpiodSetValueCansleep 0) ;;;
       emit (EvMsleep 10) ;;;
       (* [reg_val] has no initial value; it is read only after a
          read that has stored to it. *)
       rr <- ar0144_read_reg AR0144_ID_REG 0 ;;
       let '(ret, reg_val) := rr in
       if ret <? 0 then pure ret
       else if negb (reg_val =? AR0144_ID_VAL) then
         emit (EvDevErr (wrong_chip_id reg_val AR0144_ID_VAL)) ;;;
         pure (- ENODEV)
       else
         ar0144_set_register_array ar0144at_rev4_recommended_setting) ;;
  emit EvMutexUnlock ;;;
  pure ret.

(** ** Pad format and crop accessors *)

(** What the two lookup helpers return: null, or the address of the
    member of [struct ar0144]. *)
Inductive framefmt_ptr := fmt_NULL | fmt_of_ar0144.
Inductive rect_ptr := rect_NULL | crop_of_ar0144.

Definition __ar0144_get_pad_format (cfg : option v4l2_subdev_pad_config)
    (pad : Z) (which : Z) : framefmt_ptr :=
  if which =? V4L2_SUBDEV_FORMAT_TRY then fmt_of_ar0144
  else if which =? V4L2_SUBDEV_FORMAT_ACTIVE then fmt_of_ar0144
  else fmt_NULL.

Definition __ar0144_get_pad_crop (cfg : option v4l2_subdev_pad_config)
    (pad : Z) (which : Z) : rect_ptr :=
  if which =? V4L2_SUBDEV_FORMAT_TRY then crop_of_ar0144
  else if which =? V4L2_SUBDEV_FORMAT_ACTIVE then crop_of_ar0144
  else rect_NULL.

Definition load_framefmt (p : framefmt_ptr) : M v4l2_mbus_framefmt :=
  match p with
  | fmt_NULL => null_dereference
  | fmt_of_ar0144 => d <- get_dev ;; pure (fmt d)
  end.

Definition store_framefmt (p : framefmt_ptr)
    (upd : v4l2_mbus_framefmt -> v4l2_mbus_framefmt) : M unit :=
  match p with
  | fmt_NULL => null_dereference
  | fmt_of_ar0144 =>
      d <- get_dev ;; put_dev (mk_ar0144 (upd (fmt d)) (crop d) (streaming d))
  end.

Definition load_rect (p : rect_ptr) : M v4l2_rect :=
  match p with
  | rect_NULL => null_dereference
  | crop_of_ar0144 => d <- get_dev ;; pure (crop d)
  end.

Definition set_width (v : Z) (f : v4l2_mbus_framefmt) : v4l2_mbus_framefmt :=
  mk_framefmt v (fmt_height f) (fmt_code f) (fmt_field f) (fmt_colorspace f)
    (fmt_ycbcr_enc f) (fmt_quantization f) (fmt_xfer_func f).
Definition set_height (v : Z) (f : v4l2_mbus_framefmt) : v4l2_mbus_framefmt :=
  mk_framefmt (fmt_width f) v (fmt_code f) (fmt_field f) (fmt_colorspace f)
    (fmt_ycbcr_enc f) (fmt_quantization f) (fmt_xfer_func f).
Definition set_code (v : Z) (f : v4l2_mbus_framefmt) : v4l2_mbus_framefmt :=
  mk_framefmt (fmt_width f) (fmt_height f) v (fmt_field f) (fmt_colorspace f)
    (fmt_ycbcr_enc f) (fmt_quantization f) (fmt_xfer_func f).
Definition set_field (v : Z) (f : v4l2_mbus_framefmt) : v4l2_mbus_framefmt :=
  mk_framefmt (fmt_width f) (fmt_height f) (fmt_code f) v (fmt_colorspace f)
    (fmt_ycbcr_enc f) (fmt_quantization f) (fmt_xfer_func f).
Definition set_colorspace (v : Z) (f : v4l2_mbus_framefmt) : v4l2_mbus_framefmt :=
  mk_framefmt (fmt_width f) (fmt_height f) (fmt_code f) (fmt_field f) v
    (fmt_ycbcr_enc f) (fmt_quantization f) (fmt_xfer_func f).

(** The result is the [int] returned and the caller's structure as the
    call leaves it. *)
Definition ar0144_get_format (cfg : option v4l2_subdev_pad_config)
    (format : v4l2_subdev_format) : M (Z * v4l2_subdev_format) :=
  emit EvMutexLock ;;;
  f <- load_framefmt
         (__ar0144_get_pad_format cfg (sf_pad format) (sf_which format)) ;;
  let format := mk_subdev_format (sf_which format) (sf_pad format) f in
  emit EvMutexUnlock ;;;
  pure (0, format).

Definition ar0144_set_format (cfg : option v4l2_subdev_pad_config)
    (format : v4l2_subdev_format) : M (Z * v4l2_subdev_format) :=
  emit EvMutexLock ;;;
  let __format :=
    __ar0144_get_pad_format cfg (sf_pad format) (sf_which format) in
  store_framefmt __format (set_width 1280) ;;;
  store_framefmt __format (set_height 800) ;;;
  store_framefmt __format (set_code MEDIA_BUS_FMT_SRGGB12_1X12) ;;;
  store_framefmt __format (set_field V4L2_FIELD_NONE) ;;;
  store_framefmt __format (set_colorspace V4L2_COLORSPACE_SRGB) ;;;
  f <- load_framefmt __format ;;
  let format := mk_subdev_format (sf_which format) (sf_pad format) f in
  emit EvMutexUnlock ;;;
  pure (0, format).

Definition ar0144_entity_init_cfg (cfg : option v4l2_subdev_pad_config) : M Z :=
  let fmt := mk_subdev_format 0 0 framefmt_zero in
  let fmt :=
    mk_subdev_format
      (match cfg with
       | Some _ => V4L2_SUBDEV_FORMAT_TRY
       | None => V4L2_SUBDEV_FORMAT_ACTIVE
       end)
      (sf_pad fmt) (sf_format fmt) in
  ar0144_set_format cfg fmt ;;;
  pure 0.

Definition ar0144_get_selection (cfg : option v4l2_subdev_pad_config)
    (sel : v4l2_subdev_selection) : M (Z * v4l2_subdev_selection) :=
  if negb (sel_target sel =? V4L2_SEL_TGT_CROP) then pure (- EINVAL, sel)
  else
    r <- load_rect (__ar0144_get_pad_crop cfg (sel_pad sel) (sel_which sel)) ;;
    pure (0, mk_subdev_selection (sel_which sel) (sel_pad sel)
               (sel_target sel) (sel_flags sel) r).

(** ** Streaming *)

Definition ar0144_s_stream (enable : Z) : M Z :=
  emit EvMutexLock ;;;
  ret <-
    (if enable =? 0 then
       ar0144_set_register_array ar0144at_stop_stream
     else
       ret <- ar0144_set_register_array ar0144at_pll_27mhz ;;
       if ret <? 0 then pure ret else
       emit (EvMsleep 100) ;;;
       ret <- ar0144_set_register_array ar0144at_mipi_2lane_12bit ;;
       if ret <? 0 then pure ret else
       ret <- ar0144_set_register_array ar0144at_1280x800_60fps ;;
       if ret <? 0 then pure ret else
       ret <- ar0144_set_register_array ar0144at_context_b_2x2_binning ;;
       if ret <? 0 then pure ret else
       ret <- ar0144_set_register_array ar0144at_embedded_data_stats ;;
       if ret <? 0 then pure ret else
       ar0144_set_register_array ar0144at_start_stream) ;;
  emit EvMutexUnlock ;;;
  pure ret.

(** ** Probe *)

(** The outcome of the kernel calls probe makes before it touches the
    sensor: [devm_kzalloc], [of_graph_get_next_endpoint],
    [v4l2_fwnode_endpoint_parse] and the bus type it found,
    [devm_gpiod_get] ([0] for a descriptor, else the errno in the error
    pointer), [media_entity_pads_init], [v4l2_async_register_subdev].
    These calls, [mutex_init] and [v4l2_i2c_subdev_init] are not events
    of the trace; [devm_gpiod_get] is called with [GPIOD_OUT_HIGH], so a
    successful one has already set the reset line up as an output. The
    trace of a probe records its I2C transfers, sleeps, lock and unlock
    calls, calls of [gpiod_direction_output] and
    [gpiod_set_value_cansleep], log lines and [media_entity_cleanup]. *)
Record probe_env := mk_probe_env {
  kzalloc_ok : bool;
  endpoint_found : bool;
  endpoint_parse_ret : Z;
  ep_bus_type : v4l2_mbus_type;
  rst_gpio_err : Z;
  pads_init_ret : Z;
  async_register_ret : Z
}.

Definition is_csi2 (t : v4l2_mbus_type) : bool :=
  match t with V4L2_MBUS_CSI2 => true | _ => false end.

Definition ar0144_probe (env : probe_env) : M Z :=
  if negb (kzalloc_ok env) then pure (- ENOMEM) else
  put_dev ar0144_kzalloc ;;;
  if negb (endpoint_found env) then
    emit (EvDevErr endpoint_node_not_found) ;;; pure (- EINVAL)
  else
  let ret := endpoint_parse_ret env in
  if ret <? 0 then
    emit (EvDevErr parsing_endpoint_node_failed) ;;; pure ret
  else
  if negb (is_csi2 (ep_bus_type env)) then
    emit (EvDevErr invalid_bus_type) ;;; pure (- EINVAL)
  else
  if rst_gpio_err env <? 0 then
    (if negb (rst_gpio_err env =? - EPROBE_DEFER)
     then emit (EvDevErr cannot_get_reset_gpio) else pure tt) ;;;
    pure (rst_gpio_err env)
  else
  let ret := pads_init_ret env in
  if ret <? 0 then
    emit (EvDevErr could_not_register_media_entity) ;;; pure ret
  else
  ret <- ar0144_s_power 1 ;;
  if ret <? 0 then
    emit (EvDevErr could_not_power_up) ;;;
    emit EvMediaEntityCleanup ;;; pure ret
  else
  emit EvDevInfoDetected ;;;
  let ret := async_register_ret env in
  if ret <? 0 then
    emit (EvDevErr could_not_register_v4l2_device) ;;;
    emit EvMediaEntityCleanup ;;; pure ret
  else
  ar0144_entity_init_cfg None ;;;
  pure 0.

(** ** Calls that only talk to the kernel

    Such a call returns, extends the trace, leaves [struct ar0144] as it
    found it, and what it returns and does is the same whatever
    [struct ar0144] holds. [P] bounds the value returned. *)
Definition io_only {A} (P : A -> Prop) (m : M A) : Prop :=
  forall b tr, exists a b' evs,
    P a /\ forall d, m (mk_world d b tr) = Done a (mk_world d b' (tr ++ evs)).

End Driver.

Arguments mk_world {Bus} dev i2c trace.
Arguments dev {Bus} w.
Arguments i2c {Bus} w.
Arguments trace {Bus} w.
Arguments Done {Bus A} a w.
Arguments Oops {Bus A} w.
Arguments io_only {Bus A} P m.
Arguments bus_accepts {Bus} i2c_master_send b bufs.
Arguments bus_after {Bus} i2c_master_send b bufs.
Arguments bus_reads {Bus} i2c_master_send i2c_master_recv b reg.
Arguments ar0144_write_reg {Bus} i2c_master_send reg val _.
Arguments ar0144_read_reg {Bus} i2c_master_send i2c_master_recv reg val0 _.
Arguments ar0144_set_register_array {Bus} i2c_master_send settings _.
Arguments ar0144_s_power {Bus} i2c_master_send i2c_master_recv on _.
Arguments ar0144_s_stream {Bus} i2c_master_send enable _.
Arguments ar0144_get_format {Bus} cfg format _.
Arguments ar0144_set_format {Bus} cfg format _.
Arguments ar0144_entity_init_cfg {Bus} cfg _.
Arguments ar0144_get_selection {Bus} cfg sel _.
Arguments ar0144_probe {Bus} i2c_master_send i2c_master_recv env _.

(** The value and the final state of a finished call. *)
Definition retval {Bus A} (r : result Bus A) : option A :=
  match r with Done a _ => Some a | Oops _ => None end.

Definition final {Bus A} (r : result Bus A) : world Bus :=
  match r with Done _ w => w | Oops w => w end.

(** ** Adapters for concrete runs *)

Definition EREMOTEIO : Z := 121.

(** A sensor that acknowledges every transfer and answers a read with the
    two bytes of [id]. The adapter has no state. *)
Definition ack_send (b : unit) (buf : list Z) : Z * unit :=
  (Z.of_nat (length buf), tt).

Definition id_recv (id : Z) (b : unit) (buf : list Z) (count : Z)
    : Z * list Z * unit :=
  (count, [id / 256; id mod 256], tt).

(** An adapter that does not acknowledge its [k]-th send, counted from
    zero. Its state is the number of sends so far. *)
Definition nack_send (k : nat) (n : nat) (buf : list Z) : Z * nat :=
  (if Nat.eqb n k then - EREMOTEIO else Z.of_nat (length buf), S n).

Definition counted_recv (id : Z) (n : nat) (buf : list Z) (count : Z)
    : Z * list Z * nat :=
  (count, [id / 256; id mod 256], n).

(** The environment of a probe in which every kernel call succeeds. *)
Definition probe_env_ok : probe_env :=
  mk_probe_env true true 0 V4L2_MBUS_CSI2 0 0 0.

(** The device once probe has returned with every kernel call and every
    transfer successful, and the same device after a successful
    stream-on. *)
Definition world_attached : world unit :=
  final
    (ar0144_probe ack_send (id_recv AR0144_ID_VAL) probe_env_ok
       (mk_world ar0144_kzalloc tt [])).

Definition world_streaming : world unit :=
  final (ar0144_s_stream ack_send 1 world_attached).

(** The register tables [ar0144_s_stream] applies when [enable] is not
    zero, in the order of the source text. *)
Definition start_tables : list (list ar0144_reg_value) :=
  [ ar0144at_pll_27mhz; ar0144at_mipi_2lane_12bit; ar0144at_1280x800_60fps;
    ar0144at_context_b_2x2_binning; ar0144at_embedded_data_stats;
    ar0144at_start_stream ].

(** The send events of a table, in table order. *)
Definition writes_of (settings : list ar0144_reg_value) : list event :=
  map EvI2cMasterSend (frames_of settings).

(** The events of a trace before its first bus transaction. *)
Fixpoint before_first_bus (tr : list event) : list event :=
  match tr with
  | [] => []
  | e :: tr' => if is_bus_event e then [] else e :: before_first_bus tr'
  end.

(** What every power-up does before its first bus transaction. *)
Definition reset_sequence : list event :=
  [ EvMutexLock; EvGpiodDirectionOutput 1; EvMsleep 2;
    EvGpiodSetValueCansleep 0; EvMsleep 10 ].

(** The format [ar0144_set_format] leaves in a [v4l2_mbus_framefmt] that
    held [old]: five members are written, the others stay. *)
Definition fixed_format (old : v4l2_mbus_framefmt) : v4l2_mbus_framefmt :=
  mk_framefmt 1280 800 MEDIA_BUS_FMT_SRGGB12_1X12 V4L2_FIELD_NONE
    V4L2_COLORSPACE_SRGB
    (fmt_ycbcr_enc old) (fmt_quantization old) (fmt_xfer_func old).

Definition valid_which (which : Z) : Prop :=
  which = V4L2_SUBDEV_FORMAT_TRY \/ which = V4L2_SUBDEV_FORMAT_ACTIVE.

(** The tables of a stream-on that follow the PLL table and the sleep. *)
Definition after_pll : list ar0144_reg_value :=
  ar0144at_mipi_2lane_12bit ++ ar0144at_1280x800_60fps
  ++ ar0144at_context_b_2x2_binning ++ ar0144at_embedded_data_stats
  ++ ar0144at_start_stream.

(** ** Format enumeration

    The two enumeration callbacks touch neither [struct ar0144] nor the
    kernel: each is a function of its arguments, giving the [int]
    returned and the caller's structure as the call leaves it. *)

Record v4l2_subdev_mbus_code_enum := mk_mbus_code_enum {
  mce_pad : Z;
  mce_index : Z;
  mce_code : Z;
  mce_which : Z
}.

Record v4l2_subdev_frame_size_enum := mk_frame_size_enum {
  fse_index : Z;
  fse_pad : Z;
  fse_code : Z;
  fse_min_width : Z;
  fse_max_width : Z;
  fse_min_height : Z;
  fse_max_height : Z;
  fse_which : Z
}.

Definition ar0144_enum_mbus_code (cfg : option v4l2_subdev_pad_config)
    (code : v4l2_subdev_mbus_code_enum) : Z * v4l2_subdev_mbus_code_enum :=
  if mce_index code >? 0 then (- EINVAL, code)
  else
    (0, mk_mbus_code_enum (mce_pad code) (mce_index code)
          MEDIA_BUS_FMT_SRGGB12_1X12 (mce_which code)).

Definition ar0144_enum_frame_size (cfg : option v4l2_subdev_pad_config)
    (fse : v4l2_subdev_frame_size_enum) : Z * v4l2_subdev_frame_size_enum :=
  if negb (fse_code fse =? MEDIA_BUS_FMT_SRGGB12_1X12) then (- EINVAL, fse)
  else if fse_index fse >=? 1 then (- EINVAL, fse)
  else
    (0, mk_frame_size_enum (fse_index fse) (fse_pad fse) (fse_code fse)
          1280 1280 800 800 (fse_which fse)).

Definition ar0144_remove : Z := 0.

(** ** Measures of a trace *)

(** The milliseconds of sleep a trace asks for. *)
Fixpoint slept (tr : list event) : Z :=
  match tr with
  | [] => 0
  | EvMsleep ms :: tr' => ms + slept tr'
  | _ :: tr' => slept tr'
  end.

Definition is_mutex_event (e : event) : bool :=
  match e with
  | EvMutexLock | EvMutexUnlock => true
  | _ => false
  end.

Definition is_gpio_event (e : event) : bool :=
  match e with
  | EvGpiodDirectionOutput _ | EvGpiodSetValueCansleep _ => true
  | _ => false
  end.

(** The events of a register write: a 4-byte send, and the error line of
    a refused one. *)
Definition is_write_event (e : event) : bool :=
  match e with
  | EvI2cMasterSend buf => Z.of_nat (length buf) =? 4
  | EvDevErr (write_reg_error _ _ _) => true
  | _ => false
  end.

(** The error lines a trace holds, in order. *)
Fixpoint error_lines (tr : list event) : list err_msg :=
  match tr with
  | [] => []
  | EvDevErr m :: tr' => m :: error_lines tr'
  | _ :: tr' => error_lines tr'
  end.

(** The kernel calls probe makes before it powers the sensor all
    succeeded. *)
Definition preliminaries_ok (env : probe_env) : bool :=
  kzalloc_ok env && endpoint_found env && (0 <=? endpoint_parse_ret env)
  && is_csi2 (ep_bus_type env) && (0 <=? rst_gpio_err env)
  && (0 <=? pads_init_ret env).

(** How a power-up ends once the reset sequence is done, on adapter
    state [b]: [r] is the value returned and [post] the calls made
    between the reset sequence and the unlock. Either the identity read
    fails on the bus, or it gives another value than [AR0144_ID_VAL], or
    it gives that value and the recommended settings are run. *)
Definition power_up_outcome {Bus : Type}
    (send : Bus -> list Z -> Z * Bus)
    (recv : Bus -> list Z -> Z -> Z * list Z * Bus)
    (b : Bus) (r : Z) (post : list event) : Prop :=
  (bus_reads send recv b AR0144_ID_REG = None
   /\ r < 0
   /\ exists evs,
        post = EvI2cMasterSend (addr_frame AR0144_ID_REG) :: evs
        /\ (evs = [EvDevErr (read_reg_write_error r AR0144_ID_REG)]
            \/ evs = [EvI2cMasterRecv 2;
                      EvDevErr (read_reg_read_error r AR0144_ID_REG)]))
  \/ (exists buf b2,
         bus_reads send recv b AR0144_ID_REG = Some (buf, b2)
         /\ be16 buf <> AR0144_ID_VAL
         /\ r = - ENODEV
         /\ post = [ EvI2cMasterSend (addr_frame AR0144_ID_REG);
                     EvI2cMasterRecv 2;
                     EvDevErr (wrong_chip_id (be16 buf) AR0144_ID_VAL) ])
  \/ (exists buf b2 e,
         bus_reads send recv b AR0144_ID_REG = Some (buf, b2)
         /\ be16 buf = AR0144_ID_VAL
         /\ post = [ EvI2cMasterSend (addr_frame AR0144_ID_REG);
                     EvI2cMasterRecv 2 ] ++ e
         /\ forallb is_write_event e = true
         /\ (r = 0 <->
             bus_accepts send b2
               (frames_of ar0144at_rev4_recommended_setting) = true)
         /\ exists k,
              register_writes e
              = firstn k (frames_of ar0144at_rev4_recommended_setting)
              /\ (r = 0 ->
                  k = length ar0144at_rev4_recommended_setting)).

(** * Properties *)

(** ** Bytes and words *)

Lemma land_0xff (x : Z) : Z.land x 0xff = x mod 256.
Proof. change 0xff with (Z.ones 8). rewrite Z.land_ones by lia. reflexivity. Qed.

Lemma high_byte (x : Z) : is_u16 x -> u8 (Z.shiftr x 8) = x / 256.
Proof.
  unfold is_u16, u8. intros H. rewrite Z.shiftr_div_pow2 by lia.
  change (2 ^ 8) with 256. change (2 ^ 16) with 65536 in H.
  apply Z.mod_small. split.
  - apply Z.div_pos; lia.
  - apply Z.div_lt_upper_bound; lia.
Qed.

Lemma low_byte (x : Z) : u8 (Z.land x 0xff) = x mod 256.
Proof.
  rewrite land_0xff. unfold u8. change (2 ^ 8) with 256.
  apply Z.mod_small. apply Z.mod_pos_bound. lia.
Qed.

Lemma write_frame_bytes (r v : Z) :
  is_u16 r -> is_u16 v ->
  write_frame r v = [r / 256; r mod 256; v / 256; v mod 256].
Proof.
  intros Hr Hv. unfold write_frame.
  rewrite !high_byte, !low_byte by assumption. reflexivity.
Qed.

Lemma addr_frame_bytes (r : Z) :
  is_u16 r -> addr_frame r = [r / 256; r mod 256].
Proof.
  intros Hr. unfold addr_frame. rewrite high_byte, low_byte by assumption.
  reflexivity.
Qed.

Lemma lor_disjoint_bytes (h l : Z) :
  0 <= l < 256 -> Z.lor (h * 256) l = h * 256 + l.
Proof.
  intros Hl.
  assert (Hd : Z.land (h * 256) l = 0).
  { change 256 with (2 ^ 8). rewrite <- Z.shiftl_mul_pow2 by lia.
    apply Z.bits_inj'; intros n Hn. rewrite Z.land_spec, Z.bits_0.
    destruct (Z.ltb_spec n 8).
    - rewrite Z.shiftl_spec_low by lia. reflexivity.
    - replace l with (l mod 2 ^ 8) by (apply Z.mod_small; lia).
      rewrite Z.mod_pow2_bits_high by lia. apply andb_false_r. }
  rewrite <- Z.lxor_lor by exact Hd.
  symmetry. apply Z.add_nocarry_lxor. exact Hd.
Qed.

Lemma compose_be16 (x0 x1 : Z) :
  u16 (Z.lor (u16 (Z.shiftl x0 8)) (Z.land x1 0xff))
  = (x0 mod 256) * 256 + x1 mod 256.
Proof.
  rewrite land_0xff. unfold u16. rewrite Z.shiftl_mul_pow2 by lia.
  change (2 ^ 8) with 256. change (2 ^ 16) with (256 * 256).
  rewrite Z.mul_comm, Z.mul_mod_distr_l by lia.
  rewrite (Z.mul_comm 256 (x0 mod 256)).
  pose proof (Z.mod_pos_bound x0 256 ltac:(lia)).
  pose proof (Z.mod_pos_bound x1 256 ltac:(lia)).
  rewrite lor_disjoint_bytes by lia.
  apply Z.mod_small. nia.
Qed.

Lemma frames_of_app (p q : list ar0144_reg_value) :
  frames_of (p ++ q) = frames_of p ++ frames_of q.
Proof. apply map_app. Qed.

Lemma writes_of_app (p q : list ar0144_reg_value) :
  writes_of (p ++ q) = writes_of p ++ writes_of q.
Proof. unfold writes_of. rewrite frames_of_app. apply map_app. Qed.

Lemma register_writes_app (t1 t2 : list event) :
  register_writes (t1 ++ t2) = register_writes t1 ++ register_writes t2.
Proof.
  induction t1 as [|e t1 IH]; [reflexivity|].
  destruct e; simpl; try exact IH.
  destruct (Z.of_nat (length buf) =? 4); simpl; now rewrite IH.
Qed.

Lemma register_writes_writes_of (p : list ar0144_reg_value) :
  register_writes (writes_of p) = frames_of p.
Proof.
  induction p as [|s p IH]; [reflexivity|].
  unfold writes_of in *. simpl. now rewrite IH.
Qed.

Section Properties.

Variable Bus : Type.
Variable send : Bus -> list Z -> Z * Bus.
Variable recv : Bus -> list Z -> Z -> Z * list Z * Bus.

(** ** The adapter over a sequence of sends *)

Lemma bus_accepts_app (b : Bus) (l1 l2 : list (list Z)) :
  bus_accepts send b (l1 ++ l2)
  = bus_accepts send b l1 && bus_accepts send (bus_after send b l1) l2.
Proof.
  revert b. induction l1 as [|buf l1 IH]; intros b; simpl; [reflexivity|].
  destruct (send b buf) as [r b'] eqn:E. simpl.
  rewrite IH, andb_assoc. reflexivity.
Qed.

Lemma bus_after_app (b : Bus) (l1 l2 : list (list Z)) :
  bus_after send b (l1 ++ l2) = bus_after send (bus_after send b l1) l2.
Proof.
  revert b. induction l1 as [|buf l1 IH]; intros b; simpl; [reflexivity|].
  apply IH.
Qed.

(** ** Running the monad *)

Lemma bind_Done {A B} (m : M Bus A) (k : A -> M Bus B) w a w' :
  m w = Done a w' -> bind Bus m k w = k a w'.
Proof. unfold bind. intros ->. reflexivity. Qed.

Lemma emit_run (e : event) d b tr :
  emit Bus e (mk_world d b tr) = Done tt (mk_world d b (tr ++ [e])).
Proof. reflexivity. Qed.

(** ** Register transport *)

Lemma write_reg_run (r v : Z) d b tr :
  ar0144_write_reg send r v (mk_world d b tr)
  = Done (fst (send b (write_frame r v)))
      (mk_world d (snd (send b (write_frame r v)))
         (tr ++ EvI2cMasterSend (write_frame r v)
             :: (if fst (send b (write_frame r v)) <? 0
                 then [EvDevErr
                         (write_reg_error (fst (send b (write_frame r v))) r v)]
                 else []))).
Proof.
  unfold ar0144_write_reg, bind, master_send, write_frame. simpl.
  destruct (send b _) as [ret b'] eqn:E. simpl.
  destruct (ret <? 0); simpl.
  - rewrite <- app_assoc. reflexivity.
  - reflexivity.
Qed.

(** ** Register program runner *)

Lemma set_register_array_ok (p : list ar0144_reg_value) d b tr :
  bus_accepts send b (frames_of p) = true ->
  ar0144_set_register_array send p (mk_world d b tr)
  = Done 0 (mk_world d (bus_after send b (frames_of p)) (tr ++ writes_of p)).
Proof.
  revert b tr. induction p as [|s p IH]; intros b tr H.
  - simpl. unfold pure, writes_of. simpl. now rewrite app_nil_r.
  - simpl in H. unfold frame_of in H.
    destruct (send b (write_frame (reg s) (val s))) as [r b'] eqn:E.
    apply andb_true_iff in H. destruct H as [Hr Hp].
    apply Z.leb_le in Hr.
    cbn [ar0144_set_register_array].
    erewrite bind_Done by apply write_reg_run.
    rewrite E. cbn [fst snd].
    replace (r <? 0) with false by (symmetry; apply Z.ltb_ge; lia).
    rewrite IH by exact Hp.
    unfold writes_of. cbn [frames_of map bus_after].
    change (frame_of s) with (write_frame (reg s) (val s)).
    rewrite E. cbn [snd]. rewrite <- app_assoc. reflexivity.
Qed.

Lemma set_register_array_fail (pre : list ar0144_reg_value) s post d b tr :
  bus_accepts send b (frames_of pre) = true ->
  fst (send (bus_after send b (frames_of pre)) (frame_of s)) < 0 ->
  ar0144_set_register_array send (pre ++ s :: post) (mk_world d b tr)
  = Done (fst (send (bus_after send b (frames_of pre)) (frame_of s)))
      (mk_world d (snd (send (bus_after send b (frames_of pre)) (frame_of s)))
         (tr ++ writes_of pre
             ++ [EvI2cMasterSend (frame_of s);
                 EvDevErr
                   (write_reg_error
                      (fst (send (bus_after send b (frames_of pre)) (frame_of s)))
                      (reg s) (val s))])).
Proof.
  revert b tr. induction pre as [|s0 pre IH]; intros b tr H Hf.
  - cbn [app ar0144_set_register_array frames_of map bus_after writes_of] in *.
    erewrite bind_Done by apply write_reg_run.
    unfold frame_of in *.
    apply Z.ltb_lt in Hf. rewrite Hf. reflexivity.
  - simpl in H. unfold frame_of in H.
    destruct (send b (write_frame (reg s0) (val s0))) as [r b'] eqn:E.
    apply andb_true_iff in H. destruct H as [Hr Hp].
    apply Z.leb_le in Hr.
    cbn [app ar0144_set_register_array].
    erewrite bind_Done by apply write_reg_run.
    rewrite E. cbn [fst snd].
    replace (r <? 0) with false by (symmetry; apply Z.ltb_ge; lia).
    cbn [frames_of map bus_after] in *.
    change (frame_of s0) with (write_frame (reg s0) (val s0)) in *.
    rewrite E in *. cbn [snd] in *.
    rewrite IH by assumption.
    unfold writes_of. cbn [frames_of map].
    change (frame_of s0) with (write_frame (reg s0) (val s0)).
    rewrite <- !app_assoc. reflexivity.
Qed.

Lemma master_send_run (buf : list Z) d b tr :
  master_send Bus send buf (mk_world d b tr)
  = Done (fst (send b buf))
      (mk_world d (snd (send b buf)) (tr ++ [EvI2cMasterSend buf])).
Proof.
  unfold master_send. cbn [dev i2c trace]. now destruct (send b buf).
Qed.

Lemma master_recv_run (buf : list Z) (count : Z) d b tr :
  master_recv Bus recv buf count (mk_world d b tr)
  = Done (fst (fst (recv b buf count)), snd (fst (recv b buf count)))
      (mk_world d (snd (recv b buf count)) (tr ++ [EvI2cMasterRecv count])).
Proof.
  unfold master_recv. cbn [dev i2c trace].
  now destruct (recv b buf count) as [[r buf'] b'].
Qed.

Lemma read_reg_ok (r v0 : Z) d b tr buf b2 :
  bus_reads send recv b r = Some (buf, b2) ->
  ar0144_read_reg send recv r v0 (mk_world d b tr)
  = Done (0, be16 buf)
      (mk_world d b2
         (tr ++ [EvI2cMasterSend (addr_frame r); EvI2cMasterRecv 2])).
Proof.
  unfold bus_reads, ar0144_read_reg.
  change [u8 (Z.shiftr r 8); u8 (Z.land r 255)] with (addr_frame r).
  erewrite bind_Done by apply master_send_run.
  destruct (send b (addr_frame r)) as [r1 b1]. cbn [fst snd].
  destruct (r1 <? 0); [discriminate|].
  erewrite bind_Done by apply master_recv_run.
  destruct (recv b1 (addr_frame r) 2) as [[r2 buf'] b2']. cbn [fst snd].
  destruct (r2 <? 0); [discriminate|].
  intros H. injection H as -> ->.
  unfold pure. cbv zeta. rewrite compose_be16, <- app_assoc. reflexivity.
Qed.

(** ** Calls that only talk to the kernel *)

Lemma io_pure {A} (P : A -> Prop) (a : A) : P a -> io_only P (pure Bus a).
Proof.
  intros Ha b tr. exists a, b, []. split; [exact Ha|].
  intros d. unfold pure. now rewrite app_nil_r.
Qed.

Lemma io_emit (e : event) : io_only (fun _ => True) (emit Bus e).
Proof. intros b tr. exists tt, b, [e]. split; [exact I|reflexivity]. Qed.

Lemma io_master_send (buf : list Z) :
  io_only (fun _ => True) (master_send Bus send buf).
Proof.
  intros b tr. unfold master_send. cbn [dev i2c trace].
  destruct (send b buf) as [r b'].
  exists r, b', [EvI2cMasterSend buf]. split; [exact I|reflexivity].
Qed.

Lemma io_master_recv (buf : list Z) (count : Z) :
  io_only (fun _ => True) (master_recv Bus recv buf count).
Proof.
  intros b tr. unfold master_recv. cbn [dev i2c trace].
  destruct (recv b buf count) as [[r buf'] b'].
  exists (r, buf'), b', [EvI2cMasterRecv count]. split; [exact I|reflexivity].
Qed.

Lemma io_bind {A B} (P : A -> Prop) (Q : B -> Prop)
    (m : M Bus A) (k : A -> M Bus B) :
  io_only P m -> (forall a, P a -> io_only Q (k a)) -> io_only Q (bind Bus m k).
Proof.
  intros Hm Hk b tr.
  destruct (Hm b tr) as (a & b1 & e1 & Pa & Em).
  destruct (Hk a Pa b1 (tr ++ e1)) as (x & b2 & e2 & Qx & Ek).
  exists x, b2, (e1 ++ e2). split; [exact Qx|].
  intros d. unfold bind. rewrite Em, Ek, app_assoc. reflexivity.
Qed.

Lemma io_weaken {A} (P Q : A -> Prop) (m : M Bus A) :
  (forall a, P a -> Q a) -> io_only P m -> io_only Q m.
Proof.
  intros HPQ Hm b tr. destruct (Hm b tr) as (a & b' & evs & Pa & E).
  exists a, b', evs. auto.
Qed.

Lemma io_write_reg (r v : Z) :
  io_only (fun _ => True) (ar0144_write_reg send r v).
Proof.
  unfold ar0144_write_reg.
  eapply io_bind; [apply io_master_send|]. intros ret _.
  eapply io_bind with (P := fun _ => True).
  - destruct (ret <? 0); [apply io_emit | now apply io_pure].
  - intros _ _. now apply io_pure.
Qed.

Lemma io_read_reg (r v0 : Z) :
  io_only (fun rv => fst rv <= 0) (ar0144_read_reg send recv r v0).
Proof.
  unfold ar0144_read_reg.
  eapply io_bind; [apply io_master_send|]. intros ret _.
  destruct (Z.ltb_spec ret 0) as [Hneg|_].
  - eapply io_bind; [apply io_emit|]. intros _ _. apply io_pure. simpl. lia.
  - eapply io_bind; [apply io_master_recv|]. intros [ret' buf] _.
    destruct (Z.ltb_spec ret' 0) as [Hneg|_].
    + eapply io_bind; [apply io_emit|]. intros _ _. apply io_pure. simpl. lia.
    + apply io_pure. simpl. lia.
Qed.

Lemma io_set_register_array (p : list ar0144_reg_value) :
  io_only (fun r => r <= 0) (ar0144_set_register_array send p).
Proof.
  induction p as [|s p IH]; cbn [ar0144_set_register_array].
  - apply io_pure. lia.
  - eapply io_bind; [apply io_write_reg|]. intros ret _.
    destruct (Z.ltb_spec ret 0) as [Hneg|_]; [apply io_pure; lia | exact IH].
Qed.

Lemma io_s_power (on : Z) :
  io_only (fun r => r <= 0) (ar0144_s_power send recv on).
Proof.
  unfold ar0144_s_power.
  eapply io_bind; [apply io_emit|]. intros _ _.
  eapply io_bind; [apply io_emit|]. intros _ _.
  eapply io_bind with (P := fun r => r <= 0).
  - destruct (on =? 0); [apply io_pure; lia|].
    eapply io_bind; [apply io_emit|]. intros _ _.
    eapply io_bind; [apply io_emit|]. intros _ _.
    eapply io_bind; [apply io_emit|]. intros _ _.
    eapply io_bind; [apply io_read_reg|]. intros [ret reg_val] Hret.
    simpl in Hret.
    destruct (Z.ltb_spec ret 0) as [Hneg|_]; [apply io_pure; lia|].
    destruct (negb (reg_val =? AR0144_ID_VAL)).
    + eapply io_bind; [apply io_emit|]. intros _ _.
      apply io_pure. unfold ENODEV. lia.
    + apply io_set_register_array.
  - intros ret Hret. eapply io_bind; [apply io_emit|]. intros _ _.
    now apply io_pure.
Qed.

Lemma io_s_stream (enable : Z) :
  io_only (fun r => r <= 0) (ar0144_s_stream send enable).
Proof.
  assert (step : forall p (k : M Bus Z),
             io_only (fun r => r <= 0) k ->
             io_only (fun r => r <= 0)
               (bind Bus (ar0144_set_register_array send p)
                  (fun ret => if ret <? 0 then pure Bus ret else k))).
  { intros p k Hk. eapply io_bind; [apply io_set_register_array|].
    intros ret Hret. destruct (ret <? 0); [now apply io_pure | exact Hk]. }
  unfold ar0144_s_stream.
  eapply io_bind; [apply io_emit|]. intros _ _.
  eapply io_bind with (P := fun r => r <= 0).
  - destruct (enable =? 0); [apply io_set_register_array|].
    eapply io_bind; [apply io_set_register_array|]. intros ret Hret.
    destruct (ret <? 0); [now apply io_pure|].
    eapply io_bind; [apply io_emit|]. intros _ _.
    do 4 apply step. apply io_set_register_array.
  - intros ret Hret. eapply io_bind; [apply io_emit|]. intros _ _.
    now apply io_pure.
Qed.

(** ** Streaming *)

Lemma start_tables_concat :
  concat start_tables
  = ar0144at_pll_27mhz ++ ar0144at_mipi_2lane_12bit
    ++ ar0144at_1280x800_60fps ++ ar0144at_context_b_2x2_binning
    ++ ar0144at_embedded_data_stats ++ ar0144at_start_stream.
Proof. reflexivity. Qed.

Lemma s_stream_start_run (enable : Z) d b tr :
  enable <> 0 ->
  bus_accepts send b (frames_of (concat start_tables)) = true ->
  ar0144_s_stream send enable (mk_world d b tr)
  = Done 0
      (mk_world d (bus_after send b (frames_of (concat start_tables)))
         (tr ++ [EvMutexLock]
             ++ writes_of ar0144at_pll_27mhz
             ++ [EvMsleep 100]
             ++ writes_of ar0144at_mipi_2lane_12bit
             ++ writes_of ar0144at_1280x800_60fps
             ++ writes_of ar0144at_context_b_2x2_binning
             ++ writes_of ar0144at_embedded_data_stats
             ++ writes_of ar0144at_start_stream
             ++ [EvMutexUnlock])).
Proof.
  intros Hen H. rewrite start_tables_concat in *.
  rewrite !frames_of_app, !bus_after_app.
  rewrite !frames_of_app, !bus_accepts_app, !andb_true_iff in H.
  destruct H as (H1 & H2 & H3 & H4 & H5 & H6).
  unfold ar0144_s_stream.
  erewrite bind_Done by apply emit_run.
  apply Z.eqb_neq in Hen. rewrite Hen.
  erewrite bind_Done.
  2:{ erewrite bind_Done by (apply set_register_array_ok; exact H1).
      change (0 <? 0) with false. cbv iota.
      erewrite bind_Done by apply emit_run.
      erewrite bind_Done by (apply set_register_array_ok; exact H2).
      change (0 <? 0) with false. cbv iota.
      erewrite bind_Done by (apply set_register_array_ok; exact H3).
      change (0 <? 0) with false. cbv iota.
      erewrite bind_Done by (apply set_register_array_ok; exact H4).
      change (0 <? 0) with false. cbv iota.
      erewrite bind_Done by (apply set_register_array_ok; exact H5).
      change (0 <? 0) with false. cbv iota.
      apply set_register_array_ok. exact H6. }
  erewrite bind_Done by apply emit_run.
  unfold pure. rewrite <- !app_assoc. reflexivity.
Qed.

Lemma s_stream_stop_run d b tr :
  bus_accepts send b (frames_of ar0144at_stop_stream) = true ->
  ar0144_s_stream send 0 (mk_world d b tr)
  = Done 0
      (mk_world d (bus_after send b (frames_of ar0144at_stop_stream))
         (tr ++ [EvMutexLock] ++ writes_of ar0144at_stop_stream
             ++ [EvMutexUnlock])).
Proof.
  intros H. unfold ar0144_s_stream.
  erewrite bind_Done by apply emit_run.
  change (0 =? 0) with true. cbv iota.
  erewrite bind_Done by (apply set_register_array_ok; exact H).
  erewrite bind_Done by apply emit_run.
  unfold pure. rewrite <- !app_assoc. reflexivity.
Qed.

(** ** Power and reset *)

Lemma read_reg_starts_with_send (r v0 : Z) d b tr :
  exists rv b' rest,
    ar0144_read_reg send recv r v0 (mk_world d b tr)
    = Done rv (mk_world d b' (tr ++ EvI2cMasterSend (addr_frame r) :: rest)).
Proof.
  unfold ar0144_read_reg.
  change [u8 (Z.shiftr r 8); u8 (Z.land r 255)] with (addr_frame r).
  erewrite bind_Done by apply master_send_run.
  destruct (send b (addr_frame r)) as [r1 b1]. cbn [fst snd].
  destruct (r1 <? 0).
  - erewrite bind_Done by apply emit_run. unfold pure.
    do 3 eexists. rewrite <- app_assoc. reflexivity.
  - erewrite bind_Done by apply master_recv_run.
    destruct (recv b1 (addr_frame r) 2) as [[r2 buf'] b2]. cbn [fst snd].
    destruct (r2 <? 0).
    + erewrite bind_Done by apply emit_run. unfold pure.
      do 3 eexists. rewrite <- !app_assoc. reflexivity.
    + unfold pure. do 3 eexists. rewrite <- !app_assoc. reflexivity.
Qed.

Lemma s_power_on_shape (on : Z) d b tr :
  on <> 0 ->
  exists r b' rest,
    ar0144_s_power send recv on (mk_world d b tr)
    = Done r
        (mk_world d b'
           (tr ++ reset_sequence
               ++ EvI2cMasterSend (addr_frame AR0144_ID_REG) :: rest)).
Proof.
  intros Hon. apply Z.eqb_neq in Hon.
  unfold ar0144_s_power.
  erewrite bind_Done by apply emit_run.
  erewrite bind_Done by apply emit_run.
  rewrite Hon.
  assert (inner : exists r b' rest,
    bind Bus (emit Bus (EvMsleep 2)) (fun _ =>
      bind Bus (emit Bus (EvGpiodSetValueCansleep 0)) (fun _ =>
        bind Bus (emit Bus (EvMsleep 10)) (fun _ =>
          bind Bus (ar0144_read_reg send recv AR0144_ID_REG 0) (fun rr =>
            let '(ret, reg_val) := rr in
            if ret <? 0 then pure Bus ret
            else if negb (reg_val =? AR0144_ID_VAL) then
              bind Bus (emit Bus (EvDevErr (wrong_chip_id reg_val AR0144_ID_VAL)))
                (fun _ => pure Bus (- ENODEV))
            else
              ar0144_set_register_array send
                ar0144at_rev4_recommended_setting))))
      (mk_world d b ((tr ++ [EvMutexLock]) ++ [EvGpiodDirectionOutput 1]))
    = Done r
        (mk_world d b'
           (tr ++ reset_sequence
               ++ EvI2cMasterSend (addr_frame AR0144_ID_REG) :: rest))).
  { do 3 erewrite bind_Done by apply emit_run.
    match goal with
    | |- context [bind Bus (ar0144_read_reg send recv ?r ?v) _
                    (mk_world ?d ?b ?t)] =>
        destruct (read_reg_starts_with_send r v d b t)
          as ([ret reg_val] & b1 & rest & E)
    end.
    erewrite bind_Done by exact E. cbv beta iota.
    destruct (ret <? 0).
    - unfold pure. do 3 eexists. unfold reset_sequence.
      rewrite <- !app_assoc. reflexivity.
    - destruct (negb (reg_val =? AR0144_ID_VAL)).
      + erewrite bind_Done by apply emit_run. unfold pure.
        do 3 eexists. unfold reset_sequence.
        rewrite <- !app_assoc. cbn [app]. reflexivity.
      + match goal with
        | |- context [ar0144_set_register_array send ?p (mk_world ?d ?b ?t)] =>
            destruct (io_set_register_array p b t) as (r & b2 & evs & _ & E2)
        end.
        rewrite E2. do 3 eexists. unfold reset_sequence.
        rewrite <- !app_assoc. cbn [app]. reflexivity. }
  destruct inner as (r & b' & rest & E).
  erewrite bind_Done by exact E.
  erewrite bind_Done by apply emit_run. unfold pure.
  exists r, b', (rest ++ [EvMutexUnlock]).
  rewrite <- !app_assoc. reflexivity.
Qed.

Lemma s_power_off_run d b tr :
  ar0144_s_power send recv 0 (mk_world d b tr)
  = Done 0
      (mk_world d b
         (tr ++ [EvMutexLock; EvGpiodDirectionOutput 1; EvMutexUnlock])).
Proof.
  unfold ar0144_s_power, bind, emit, pure. cbn.
  rewrite <- !app_assoc. reflexivity.
Qed.

Lemma s_power_mismatch_run (on : Z) d b tr buf b2 :
  on <> 0 ->
  bus_reads send recv b AR0144_ID_REG = Some (buf, b2) ->
  be16 buf <> AR0144_ID_VAL ->
  ar0144_s_power send recv on (mk_world d b tr)
  = Done (- ENODEV)
      (mk_world d b2
         (tr ++ reset_sequence
             ++ [ EvI2cMasterSend (addr_frame AR0144_ID_REG);
                  EvI2cMasterRecv 2;
                  EvDevErr (wrong_chip_id (be16 buf) AR0144_ID_VAL);
                  EvMutexUnlock ])).
Proof.
  intros Hon Hread Hid. apply Z.eqb_neq in Hon. apply Z.eqb_neq in Hid.
  unfold ar0144_s_power.
  do 2 erewrite bind_Done by apply emit_run.
  rewrite Hon.
  erewrite bind_Done.
  2:{ do 3 erewrite bind_Done by apply emit_run.
      erewrite bind_Done by (apply read_reg_ok; exact Hread).
      cbv beta iota. change (0 <? 0) with false. rewrite Hid. cbn [negb].
      erewrite bind_Done by apply emit_run. reflexivity. }
  erewrite bind_Done by apply emit_run. unfold pure, reset_sequence.
  rewrite <- !app_assoc. reflexivity.
Qed.

Lemma s_power_ok_run (on : Z) d b tr buf b2 :
  on <> 0 ->
  bus_reads send recv b AR0144_ID_REG = Some (buf, b2) ->
  be16 buf = AR0144_ID_VAL ->
  bus_accepts send b2 (frames_of ar0144at_rev4_recommended_setting) = true ->
  ar0144_s_power send recv on (mk_world d b tr)
  = Done 0
      (mk_world d
         (bus_after send b2 (frames_of ar0144at_rev4_recommended_setting))
         (tr ++ reset_sequence
             ++ [ EvI2cMasterSend (addr_frame AR0144_ID_REG);
                  EvI2cMasterRecv 2 ]
             ++ writes_of ar0144at_rev4_recommended_setting
             ++ [EvMutexUnlock])).
Proof.
  intros Hon Hread Hid Hacc. apply Z.eqb_neq in Hon.
  unfold ar0144_s_power.
  do 2 erewrite bind_Done by apply emit_run.
  rewrite Hon.
  erewrite bind_Done.
  2:{ do 3 erewrite bind_Done by apply emit_run.
      erewrite bind_Done by (apply read_reg_ok; exact Hread).
      cbv beta iota. change (0 <? 0) with false. rewrite Hid.
      rewrite Z.eqb_refl. cbn [negb].
      apply set_register_array_ok. exact Hacc. }
  erewrite bind_Done by apply emit_run. unfold pure, reset_sequence.
  rewrite <- !app_assoc. reflexivity.
Qed.

(** ** Pad format and selection *)

Lemma get_pad_format_valid cfg pad which :
  valid_which which -> __ar0144_get_pad_format cfg pad which = fmt_of_ar0144.
Proof. intros [-> | ->]; reflexivity. Qed.

Lemma get_pad_crop_valid cfg pad which :
  valid_which which -> __ar0144_get_pad_crop cfg pad which = crop_of_ar0144.
Proof. intros [-> | ->]; reflexivity. Qed.

Lemma get_pad_format_other cfg pad which :
  which <> V4L2_SUBDEV_FORMAT_TRY -> which <> V4L2_SUBDEV_FORMAT_ACTIVE ->
  __ar0144_get_pad_format cfg pad which = fmt_NULL.
Proof.
  intros H1 H2. unfold __ar0144_get_pad_format.
  apply Z.eqb_neq in H1, H2. now rewrite H1, H2.
Qed.

Lemma get_pad_crop_other cfg pad which :
  which <> V4L2_SUBDEV_FORMAT_TRY -> which <> V4L2_SUBDEV_FORMAT_ACTIVE ->
  __ar0144_get_pad_crop cfg pad which = rect_NULL.
Proof.
  intros H1 H2. unfold __ar0144_get_pad_crop.
  apply Z.eqb_neq in H1, H2. now rewrite H1, H2.
Qed.

Lemma set_format_run cfg (req : v4l2_subdev_format) d (b : Bus) tr :
  valid_which (sf_which req) ->
  ar0144_set_format cfg req (mk_world d b tr)
  = Done (0, mk_subdev_format (sf_which req) (sf_pad req) (fixed_format (fmt d)))
      (mk_world (mk_ar0144 (fixed_format (fmt d)) (crop d) (streaming d)) b
         (tr ++ [EvMutexLock; EvMutexUnlock])).
Proof.
  intros H. unfold ar0144_set_format.
  rewrite (get_pad_format_valid cfg _ _ H).
  unfold bind, emit, store_framefmt, load_framefmt, get_dev, put_dev, pure.
  cbn. rewrite <- app_assoc. reflexivity.
Qed.

Lemma set_format_null cfg (req : v4l2_subdev_format) d (b : Bus) tr :
  sf_which req <> V4L2_SUBDEV_FORMAT_TRY ->
  sf_which req <> V4L2_SUBDEV_FORMAT_ACTIVE ->
  ar0144_set_format cfg req (mk_world d b tr)
  = Oops (mk_world d b (tr ++ [EvMutexLock])).
Proof.
  intros H1 H2. unfold ar0144_set_format.
  rewrite (get_pad_format_other cfg _ _ H1 H2). reflexivity.
Qed.

Lemma get_format_run cfg (req : v4l2_subdev_format) d (b : Bus) tr :
  valid_which (sf_which req) ->
  ar0144_get_format cfg req (mk_world d b tr)
  = Done (0, mk_subdev_format (sf_which req) (sf_pad req) (fmt d))
      (mk_world d b (tr ++ [EvMutexLock; EvMutexUnlock])).
Proof.
  intros H. unfold ar0144_get_format.
  rewrite (get_pad_format_valid cfg _ _ H).
  unfold bind, emit, load_framefmt, get_dev, pure.
  cbn. rewrite <- app_assoc. reflexivity.
Qed.

Lemma get_selection_run cfg (sel : v4l2_subdev_selection) d (b : Bus) tr :
  sel_target sel = V4L2_SEL_TGT_CROP ->
  valid_which (sel_which sel) ->
  ar0144_get_selection cfg sel (mk_world d b tr)
  = Done (0, mk_subdev_selection (sel_which sel) (sel_pad sel)
               (sel_target sel) (sel_flags sel) (crop d))
      (mk_world d b tr).
Proof.
  intros Ht H. unfold ar0144_get_selection.
  rewrite Ht, (get_pad_crop_valid cfg _ _ H). reflexivity.
Qed.

(** ** Probe *)

Lemma put_dev_run (d' d : ar0144) (b : Bus) tr :
  put_dev Bus d' (mk_world d b tr) = Done tt (mk_world d' b tr).
Proof. reflexivity. Qed.

(** A probe that returns 0 leaves the format set and the crop rectangle
    as [devm_kzalloc] made it. *)
Lemma probe_leaves_crop_zero env d0 b tr w' :
  ar0144_probe send recv env (mk_world d0 b tr) = Done 0 w' ->
  dev w' = mk_ar0144 (fixed_format framefmt_zero) rect_zero false.
Proof.
  unfold ar0144_probe.
  destruct (kzalloc_ok env); cbn [negb]; [|discriminate].
  erewrite bind_Done by apply put_dev_run.
  destruct (endpoint_found env); cbn [negb];
    [|erewrite bind_Done by apply emit_run; discriminate].
  destruct (Z.ltb_spec (endpoint_parse_ret env) 0) as [Hn|_].
  { erewrite bind_Done by apply emit_run. unfold pure. intros H.
    injection H as H _. lia. }
  destruct (is_csi2 (ep_bus_type env)); cbn [negb];
    [|erewrite bind_Done by apply emit_run; discriminate].
  destruct (Z.ltb_spec (rst_gpio_err env) 0) as [Hn|_].
  { destruct (negb (rst_gpio_err env =? - EPROBE_DEFER)).
    - erewrite bind_Done by apply emit_run. unfold pure. intros H.
      injection H as H _. lia.
    - unfold bind, pure. intros H. injection H as H _. lia. }
  destruct (Z.ltb_spec (pads_init_ret env) 0) as [Hn|_].
  { erewrite bind_Done by apply emit_run. unfold pure. intros H.
    injection H as H _. lia. }
  destruct (io_s_power 1 b tr) as (r & b1 & evs & _ & E).
  erewrite bind_Done by apply E.
  destruct (Z.ltb_spec r 0) as [Hn|_].
  { do 2 erewrite bind_Done by apply emit_run. unfold pure. intros H.
    injection H as H _. lia. }
  erewrite bind_Done by apply emit_run.
  destruct (Z.ltb_spec (async_register_ret env) 0) as [Hn|_].
  { do 2 erewrite bind_Done by apply emit_run. unfold pure. intros H.
    injection H as H _. lia. }
  unfold ar0144_entity_init_cfg. cbn [sf_pad sf_format].
  erewrite bind_Done.
  2:{ erewrite bind_Done by (apply set_format_run; right; reflexivity).
      reflexivity. }
  unfold pure. intros H. injection H as <-. reflexivity.
Qed.

(** * The design document's properties *)

(** C1. When the adapter takes every register write of the start
    sequence, [ar0144_s_stream] with a non-zero [enable] returns 0 and
    its calls are, in this order and with nothing between or left out:
    the PLL table, a 100 ms sleep, the MIPI lane table, the 1280x800
    geometry table, the binning table, the embedded-data table and the
    start-stream table, inside the lock. *)
Theorem C1_start_applies_programs_in_order (enable : Z) d b tr :
  enable <> 0 ->
  bus_accepts send b (frames_of (concat start_tables)) = true ->
  ar0144_s_stream send enable (mk_world d b tr)
  = Done 0
      (mk_world d (bus_after send b (frames_of (concat start_tables)))
         (tr ++ [EvMutexLock]
             ++ writes_of ar0144at_pll_27mhz
             ++ [EvMsleep 100]
             ++ writes_of ar0144at_mipi_2lane_12bit
             ++ writes_of ar0144at_1280x800_60fps
             ++ writes_of ar0144at_context_b_2x2_binning
             ++ writes_of ar0144at_embedded_data_stats
             ++ writes_of ar0144at_start_stream
             ++ [EvMutexUnlock]))
  /\ register_writes
       (trace (final (ar0144_s_stream send enable (mk_world d b [])))) 
     = frames_of ar0144at_pll_27mhz
       ++ frames_of ar0144at_mipi_2lane_12bit
       ++ frames_of ar0144at_1280x800_60fps
       ++ frames_of ar0144at_context_b_2x2_binning
       ++ frames_of ar0144at_embedded_data_stats
       ++ frames_of ar0144at_start_stream.
Proof.
  intros Hen Hacc. split.
  - now apply s_stream_start_run.
  - rewrite s_stream_start_run by assumption.
    unfold final, trace. rewrite !register_writes_app.
    rewrite !register_writes_writes_of.
    change (register_writes []) with (@nil (list Z)).
    change (register_writes [EvMutexLock]) with (@nil (list Z)).
    change (register_writes [EvMsleep 100]) with (@nil (list Z)).
    change (register_writes [EvMutexUnlock]) with (@nil (list Z)).
    rewrite app_nil_r. reflexivity.
Qed.

(** C3, as the code has it. When the send of entry [k] of a table is the
    first to fail, the runner has sent entries 0 to [k] in order, sends
    nothing after, and returns the negative value of the failed send;
    the register and value of the failed entry go to the device log, the
    index goes nowhere. When every send of a table is taken, all its
    entries are sent in order and the runner returns 0. *)
Theorem C3_apply_stops_at_first_failure :
  (forall (pre : list ar0144_reg_value) (s : ar0144_reg_value)
          (post : list ar0144_reg_value) d b tr,
      bus_accepts send b (frames_of pre) = true ->
      fst (send (bus_after send b (frames_of pre)) (frame_of s)) < 0 ->
      ar0144_set_register_array send (pre ++ s :: post) (mk_world d b tr)
      = Done (fst (send (bus_after send b (frames_of pre)) (frame_of s)))
          (mk_world d
             (snd (send (bus_after send b (frames_of pre)) (frame_of s)))
             (tr ++ writes_of pre
                 ++ [EvI2cMasterSend (frame_of s);
                     EvDevErr
                       (write_reg_error
                          (fst (send (bus_after send b (frames_of pre))
                                  (frame_of s)))
                          (reg s) (val s))]))
      /\ register_writes
           (trace (final (ar0144_set_register_array send (pre ++ s :: post)
                            (mk_world d b []))))
         = frames_of (pre ++ [s]))
  /\ (forall (p : list ar0144_reg_value) d b tr,
        bus_accepts send b (frames_of p) = true ->
        ar0144_set_register_array send p (mk_world d b tr)
        = Done 0
            (mk_world d (bus_after send b (frames_of p)) (tr ++ writes_of p))
        /\ register_writes
             (trace (final (ar0144_set_register_array send p
                              (mk_world d b []))))
           = frames_of p).
Proof.
  split.
  - intros pre s post d b tr Hacc Hfail. split.
    + now apply set_register_array_fail.
    + rewrite set_register_array_fail by assumption. cbn [final trace app].
      rewrite register_writes_app, register_writes_writes_of, frames_of_app.
      reflexivity.
  - intros p d b tr Hp. split.
    + now apply set_register_array_ok.
    + rewrite set_register_array_ok by exact Hp. cbn [final trace app].
      apply register_writes_writes_of.
Qed.

(** C4, as the code has it. When the identity read goes through and
    gives a value other than [AR0144_ID_VAL], power-up returns
    [-ENODEV]; its only bus transactions are the two of the read, so no
    entry of the recommended settings is written. No state of the device
    is recorded: [struct ar0144] is as it was, the reset line has been
    driven active and then inactive and stays so, and a following
    stream-on is carried out and returns 0 when its writes are taken. *)
Theorem C4_identity_mismatch_aborts_power_up (on : Z) d b tr buf b2 :
  on <> 0 ->
  bus_reads send recv b AR0144_ID_REG = Some (buf, b2) ->
  be16 buf <> AR0144_ID_VAL ->
  ar0144_s_power send recv on (mk_world d b tr)
  = Done (- ENODEV)
      (mk_world d b2
         (tr ++ [ EvMutexLock; EvGpiodDirectionOutput 1; EvMsleep 2;
                  EvGpiodSetValueCansleep 0; EvMsleep 10;
                  EvI2cMasterSend (addr_frame AR0144_ID_REG);
                  EvI2cMasterRecv 2;
                  EvDevErr (wrong_chip_id (be16 buf) AR0144_ID_VAL);
                  EvMutexUnlock ]))
  /\ register_writes
       (trace (final (ar0144_s_power send recv on (mk_world d b [])))) = []
  /\ dev (final (ar0144_s_power send recv on (mk_world d b tr))) = d
  /\ filter is_gpio_event
       (trace (final (ar0144_s_power send recv on (mk_world d b []))))
     = [EvGpiodDirectionOutput 1; EvGpiodSetValueCansleep 0]
  /\ (forall enable,
        enable <> 0 ->
        bus_accepts send b2 (frames_of (concat start_tables)) = true ->
        retval
          (ar0144_s_stream send enable
             (final (ar0144_s_power send recv on (mk_world d b tr))))
        = Some 0).
Proof.
  intros Hon Hread Hid.
  split; [now apply s_power_mismatch_run|].
  rewrite !(s_power_mismatch_run on d b _ buf b2 Hon Hread Hid).
  split; [reflexivity|]. split; [reflexivity|]. split; [reflexivity|].
  intros enable Hen Hacc. cbn [final].
  rewrite s_stream_start_run by assumption. reflexivity.
Qed.

(** C5, as the code has it. Whatever width, height and code are asked
    for and whatever [struct ar0144] holds (the [streaming] member
    included), [ar0144_set_format] with [which] TRY or ACTIVE returns 0,
    stores width 1280, height 800 and code SRGGB12_1X12 in the device
    format and hands the stored format back. *)
Theorem C5_set_format_always_stores_fixed_format
    cfg (req : v4l2_subdev_format) d (b : Bus) tr :
  valid_which (sf_which req) ->
  ar0144_set_format cfg req (mk_world d b tr)
  = Done (0, mk_subdev_format (sf_which req) (sf_pad req) (fixed_format (fmt d)))
      (mk_world (mk_ar0144 (fixed_format (fmt d)) (crop d) (streaming d)) b
         (tr ++ [EvMutexLock; EvMutexUnlock]))
  /\ fmt_width (fixed_format (fmt d)) = 1280
  /\ fmt_height (fixed_format (fmt d)) = 800
  /\ fmt_code (fixed_format (fmt d)) = MEDIA_BUS_FMT_SRGGB12_1X12.
Proof.
  intros H. split; [now apply set_format_run | repeat split].
Qed.

(** C6. Every power-up returns, and what it does before its first bus
    transaction is: take the lock, drive the reset line active, sleep
    2 ms, release the reset line, sleep 10 ms. The first bus transaction
    is the send of the identity register's address. *)
Theorem C6_reset_and_settle_precede_bus (on : Z) d b tr :
  on <> 0 ->
  exists r w' rest,
    ar0144_s_power send recv on (mk_world d b tr) = Done r w'
    /\ trace w' = tr ++ rest
    /\ before_first_bus rest
       = [ EvMutexLock; EvGpiodDirectionOutput 1; EvMsleep 2;
           EvGpiodSetValueCansleep 0; EvMsleep 10 ]
    /\ nth_error rest (length (before_first_bus rest))
       = Some (EvI2cMasterSend (addr_frame AR0144_ID_REG)).
Proof.
  intros Hon.
  destruct (s_power_on_shape on d b tr Hon) as (r & b' & rest & E).
  exists r, (mk_world d b'
               (tr ++ reset_sequence
                   ++ EvI2cMasterSend (addr_frame AR0144_ID_REG) :: rest)),
    (reset_sequence ++ EvI2cMasterSend (addr_frame AR0144_ID_REG) :: rest).
  repeat split; assumption || reflexivity.
Qed.

(** C7. For 16-bit [r] and [v], [ar0144_write_reg] sends the one buffer
    [r / 256; r mod 256; v / 256; v mod 256] and returns what the send
    returned. [ar0144_read_reg] sends [r / 256; r mod 256], then
    receives 2 bytes, and when both calls go through and leave bytes
    [x0], [x1] it returns 0 and stores [x0 * 256 + x1]. *)
Theorem C7_transport_framing (r v : Z) d b tr :
  is_u16 r -> is_u16 v ->
  ar0144_write_reg send r v (mk_world d b tr)
  = Done (fst (send b [r / 256; r mod 256; v / 256; v mod 256]))
      (mk_world d (snd (send b [r / 256; r mod 256; v / 256; v mod 256]))
         (tr ++ EvI2cMasterSend [r / 256; r mod 256; v / 256; v mod 256]
             :: (if fst (send b [r / 256; r mod 256; v / 256; v mod 256]) <? 0
                 then [EvDevErr
                         (write_reg_error
                            (fst (send b [r / 256; r mod 256;
                                          v / 256; v mod 256])) r v)]
                 else [])))
  /\ (forall (v0 r1 r2 x0 x1 : Z) (b1 b2 : Bus),
        send b [r / 256; r mod 256] = (r1, b1) -> 0 <= r1 ->
        recv b1 [r / 256; r mod 256] 2 = (r2, [x0; x1], b2) -> 0 <= r2 ->
        is_u8 x0 -> is_u8 x1 ->
        ar0144_read_reg send recv r v0 (mk_world d b tr)
        = Done (0, x0 * 256 + x1)
            (mk_world d b2
               (tr ++ [ EvI2cMasterSend [r / 256; r mod 256];
                        EvI2cMasterRecv 2 ]))).
Proof.
  intros Hr Hv. split.
  - rewrite <- (write_frame_bytes r v Hr Hv). apply write_reg_run.
  - intros v0 r1 r2 x0 x1 b1 b2 Es Hr1 Er Hr2 Hx0 Hx1.
    rewrite <- (addr_frame_bytes r Hr) in *.
    rewrite read_reg_ok with (buf := [x0; x1]) (b2 := b2).
    + unfold be16. cbn [nth]. unfold is_u8 in *.
      change (2 ^ 8) with 256 in *.
      rewrite !Z.mod_small by lia. reflexivity.
    + unfold bus_reads. rewrite Es.
      replace (r1 <? 0) with false by (symmetry; apply Z.ltb_ge; lia).
      rewrite Er.
      replace (r2 <? 0) with false by (symmetry; apply Z.ltb_ge; lia).
      reflexivity.
Qed.

(** C9. The two lookup helpers give the member of [struct ar0144] for
    TRY and for ACTIVE alike, whatever pad configuration is passed, and
    null for any other [which]. So the format a TRY [set_format] stores
    is the one an ACTIVE [get_format] reads back. *)
Theorem C9_try_and_active_share_storage
    (cfg cfg' : option v4l2_subdev_pad_config) (pad : Z) :
  __ar0144_get_pad_format cfg pad V4L2_SUBDEV_FORMAT_TRY = fmt_of_ar0144
  /\ __ar0144_get_pad_format cfg pad V4L2_SUBDEV_FORMAT_ACTIVE = fmt_of_ar0144
  /\ __ar0144_get_pad_crop cfg pad V4L2_SUBDEV_FORMAT_TRY = crop_of_ar0144
  /\ __ar0144_get_pad_crop cfg pad V4L2_SUBDEV_FORMAT_ACTIVE = crop_of_ar0144
  /\ (forall which,
        which <> V4L2_SUBDEV_FORMAT_TRY -> which <> V4L2_SUBDEV_FORMAT_ACTIVE ->
        __ar0144_get_pad_format cfg pad which = fmt_NULL
        /\ __ar0144_get_pad_crop cfg pad which = rect_NULL)
  /\ (forall (req q : v4l2_subdev_format) d (b : Bus) tr,
        sf_which req = V4L2_SUBDEV_FORMAT_TRY ->
        sf_which q = V4L2_SUBDEV_FORMAT_ACTIVE ->
        retval (ar0144_get_format cfg' q (mk_world d b tr))
        = Some (0, mk_subdev_format V4L2_SUBDEV_FORMAT_ACTIVE (sf_pad q) (fmt d))
        /\ retval
             (ar0144_get_format cfg' q
                (final (ar0144_set_format cfg req (mk_world d b tr))))
           = Some (0, mk_subdev_format V4L2_SUBDEV_FORMAT_ACTIVE (sf_pad q)
                        (fixed_format (fmt d)))).
Proof.
  repeat split; try reflexivity.
  - now apply get_pad_format_other.
  - now apply get_pad_crop_other.
  - rewrite get_format_run by (right; assumption). cbn [retval]. now rewrite H0.
  - rewrite set_format_run by (left; assumption). cbn [final].
    rewrite get_format_run by (right; assumption).
    cbn [retval fmt]. now rewrite H0.
Qed.

(** C10. [ar0144_write_reg] returns what the send returned, so the byte
    count on success. The runner, [ar0144_s_stream] and [ar0144_s_power]
    always return, never a positive value, and 0 when no transfer fails
    and the identity matches; the format and selection accessors return
    0 when they return. *)
Theorem C10_success_returns_zero d b tr :
  (forall r v,
      retval (ar0144_write_reg send r v (mk_world d b tr))
      = Some (fst (send b (write_frame r v))))
  /\ (forall p, exists r w',
        ar0144_set_register_array send p (mk_world d b tr) = Done r w'
        /\ r <= 0
        /\ (bus_accepts send b (frames_of p) = true -> r = 0))
  /\ (forall enable, exists r w',
        ar0144_s_stream send enable (mk_world d b tr) = Done r w'
        /\ r <= 0
        /\ (bus_accepts send b
              (frames_of (if enable =? 0 then ar0144at_stop_stream
                          else concat start_tables)) = true ->
            r = 0))
  /\ (forall on, exists r w',
        ar0144_s_power send recv on (mk_world d b tr) = Done r w'
        /\ r <= 0
        /\ (on = 0 -> r = 0)
        /\ (forall buf b2,
              bus_reads send recv b AR0144_ID_REG = Some (buf, b2) ->
              be16 buf = AR0144_ID_VAL ->
              bus_accepts send b2
                (frames_of ar0144at_rev4_recommended_setting) = true ->
              r = 0))
  /\ (forall cfg req, valid_which (sf_which req) ->
        exists f w',
          ar0144_set_format cfg req (mk_world d b tr) = Done (0, f) w')
  /\ (forall cfg req, valid_which (sf_which req) ->
        exists f w',
          ar0144_get_format cfg req (mk_world d b tr) = Done (0, f) w')
  /\ (forall cfg sel,
        sel_target sel = V4L2_SEL_TGT_CROP -> valid_which (sel_which sel) ->
        exists s w',
          ar0144_get_selection cfg sel (mk_world d b tr) = Done (0, s) w').
Proof.
  split; [|split; [|split; [|split; [|split; [|split]]]]].
  - intros r v. now rewrite write_reg_run.
  - intros p. destruct (io_set_register_array p b tr) as (r & b' & evs & Hr & E).
    exists r, (mk_world d b' (tr ++ evs)). repeat split; auto.
    intros Hacc. specialize (E d).
    rewrite set_register_array_ok in E by exact Hacc. now injection E.
  - intros enable.
    destruct (io_s_stream enable b tr) as (r & b' & evs & Hr & E).
    exists r, (mk_world d b' (tr ++ evs)). repeat split; auto.
    intros Hacc. specialize (E d).
    destruct (Z.eqb_spec enable 0) as [-> | Hen].
    + rewrite s_stream_stop_run in E by exact Hacc. now injection E.
    + rewrite s_stream_start_run in E by assumption. now injection E.
  - intros on.
    destruct (io_s_power on b tr) as (r & b' & evs & Hr & E).
    exists r, (mk_world d b' (tr ++ evs)). repeat split; auto.
    + intros ->. specialize (E d). rewrite s_power_off_run in E.
      now injection E.
    + intros buf b2 Hread Hid Hacc. specialize (E d).
      destruct (Z.eq_dec on 0) as [-> | Hon].
      * rewrite s_power_off_run in E. now injection E.
      * rewrite s_power_ok_run with (buf := buf) (b2 := b2) in E by assumption.
        now injection E.
  - intros cfg req H. rewrite set_format_run by exact H. eauto.
  - intros cfg req H. rewrite get_format_run by exact H. eauto.
  - intros cfg sel Ht H. rewrite get_selection_run by assumption. eauto.
Qed.

End Properties.

(** * Concrete runs *)

(** C1 on the acknowledging adapter: the 32 register writes of a
    stream-on are the six tables in order. *)
Lemma C1_start_order_on_ack_adapter :
  register_writes
    (trace (final (ar0144_s_stream ack_send 1 (mk_world ar0144_kzalloc tt []))))
  = frames_of ar0144at_pll_27mhz
    ++ frames_of ar0144at_mipi_2lane_12bit
    ++ frames_of ar0144at_1280x800_60fps
    ++ frames_of ar0144at_context_b_2x2_binning
    ++ frames_of ar0144at_embedded_data_stats
    ++ frames_of ar0144at_start_stream.
Proof.
  apply (C1_start_applies_programs_in_order unit ack_send 1 ar0144_kzalloc tt []).
  - discriminate.
  - reflexivity.
Defined.

(** C3 on a four-entry table whose entry 2 is not acknowledged: three
    writes are seen and the fourth entry is never sent; and on the same
    table with every send acknowledged: four writes and 0. *)
Lemma C3_four_entries_third_fails :
  register_writes
    (trace
       (final
          (ar0144_set_register_array (nack_send 2)
             ([rv 0x3040 0x1000; rv 0x30A8 0x0003]
                ++ rv 0x3040 0x3000 :: [rv 0x30AE 0x0003])
             (mk_world ar0144_kzalloc 0%nat []))))
  = frames_of ([rv 0x3040 0x1000; rv 0x30A8 0x0003] ++ [rv 0x3040 0x3000])
  /\ ar0144_set_register_array ack_send ar0144at_context_b_2x2_binning
       (mk_world ar0144_kzalloc tt [])
     = Done 0
         (mk_world ar0144_kzalloc
            (bus_after ack_send tt (frames_of ar0144at_context_b_2x2_binning))
            ([] ++ writes_of ar0144at_context_b_2x2_binning)).
Proof.
  split.
  - apply (proj1 (C3_apply_stops_at_first_failure nat (nack_send 2))
             [rv 0x3040 0x1000; rv 0x30A8 0x0003] (rv 0x3040 0x3000)
             [rv 0x30AE 0x0003] ar0144_kzalloc 0%nat []).
    + reflexivity.
    + reflexivity.
  - apply (proj2 (C3_apply_stops_at_first_failure unit ack_send)
             ar0144at_context_b_2x2_binning ar0144_kzalloc tt []).
    reflexivity.
Defined.

(** The value the runner returns cannot tell which entry failed: on the
    binning table it is the same whether the send of entry 0, of entry 1
    or of entry 2 is the one refused, although the number of writes made
    differs. *)
Lemma C3_return_value_does_not_name_the_entry :
  retval (ar0144_set_register_array (nack_send 0)
            ar0144at_context_b_2x2_binning (mk_world ar0144_kzalloc 0%nat []))
  = Some (- EREMOTEIO)
  /\ retval (ar0144_set_register_array (nack_send 1)
               ar0144at_context_b_2x2_binning (mk_world ar0144_kzalloc 0%nat []))
     = Some (- EREMOTEIO)
  /\ retval (ar0144_set_register_array (nack_send 2)
               ar0144at_context_b_2x2_binning (mk_world ar0144_kzalloc 0%nat []))
     = Some (- EREMOTEIO)
  /\ length (register_writes (trace (final
       (ar0144_set_register_array (nack_send 0)
          ar0144at_context_b_2x2_binning (mk_world ar0144_kzalloc 0%nat [])))))
     = 1%nat
  /\ length (register_writes (trace (final
       (ar0144_set_register_array (nack_send 1)
          ar0144at_context_b_2x2_binning (mk_world ar0144_kzalloc 0%nat [])))))
     = 2%nat
  /\ length (register_writes (trace (final
       (ar0144_set_register_array (nack_send 2)
          ar0144at_context_b_2x2_binning (mk_world ar0144_kzalloc 0%nat [])))))
     = 3%nat.
Proof. repeat split. Qed.

(** C2 as stated fails. On a device that is already streaming, a second
    stream-on returns 0 and repeats the 32 register writes; a stream-off
    on a device that never streamed returns 0 and writes the stop
    command; a power-up of a streaming device returns 0 and rewrites the
    recommended settings. *)
Lemma C2_calls_from_other_states_succeed :
  retval (ar0144_s_stream ack_send 1 world_attached) = Some 0
  /\ retval (ar0144_s_stream ack_send 1 world_streaming) = Some 0
  /\ length (register_writes
               (trace (final (ar0144_s_stream ack_send 1 world_streaming))))
     = (length (register_writes (trace world_streaming)) + 32)%nat
  /\ retval (ar0144_s_stream ack_send 0 world_attached) = Some 0
  /\ length (register_writes
               (trace (final (ar0144_s_stream ack_send 0 world_attached))))
     = (length (register_writes (trace world_attached)) + 1)%nat
  /\ retval (ar0144_s_power ack_send (id_recv AR0144_ID_VAL) 1 world_streaming)
     = Some 0
  /\ length (register_writes
               (trace (final (ar0144_s_power ack_send (id_recv AR0144_ID_VAL) 1
                                world_streaming))))
     = (length (register_writes (trace world_streaming)) + 25)%nat.
Proof. vm_compute. repeat split. Qed.

(** C4 on a sensor that answers the identity read with 0x2406. *)
Lemma C4_wrong_identity_run :
  ar0144_s_power ack_send (id_recv 0x2406) 1 (mk_world ar0144_kzalloc tt [])
  = Done (- ENODEV)
      (mk_world ar0144_kzalloc tt
         [ EvMutexLock; EvGpiodDirectionOutput 1; EvMsleep 2;
           EvGpiodSetValueCansleep 0; EvMsleep 10;
           EvI2cMasterSend [0x30; 0x00]; EvI2cMasterRecv 2;
           EvDevErr (wrong_chip_id 0x2406 0x1356); EvMutexUnlock ]).
Proof.
  refine (proj1 (C4_identity_mismatch_aborts_power_up unit ack_send
                   (id_recv 0x2406) 1 ar0144_kzalloc tt []
                   [0x24; 0x06] tt _ _ _)).
  - discriminate.
  - reflexivity.
  - discriminate.
Defined.

(** C4 as stated fails in its last part. After a power-up that found
    another identity there is no powered-down state: the last thing done
    to the reset line was to release it, and a stream-on is carried out,
    returns 0 and makes its 32 register writes. *)
Lemma C4_no_powered_down_state_after_mismatch :
  retval (ar0144_s_power ack_send (id_recv 0x2406) 1
            (mk_world ar0144_kzalloc tt []))
  = Some (- ENODEV)
  /\ last (filter is_gpio_event
             (trace (final (ar0144_s_power ack_send (id_recv 0x2406) 1
                              (mk_world ar0144_kzalloc tt [])))))
       EvMutexLock
     = EvGpiodSetValueCansleep 0
  /\ retval (ar0144_s_stream ack_send 1
               (final (ar0144_s_power ack_send (id_recv 0x2406) 1
                         (mk_world ar0144_kzalloc tt []))))
     = Some 0
  /\ length (register_writes
               (trace (final
                  (ar0144_s_stream ack_send 1
                     (final (ar0144_s_power ack_send (id_recv 0x2406) 1
                               (mk_world ar0144_kzalloc tt [])))))))
     = 32%nat.
Proof. vm_compute. repeat split. Qed.

(** C5 on a device whose [streaming] member is set: a request for
    640x480 is answered with 0 and the fixed format. *)
Lemma C5_set_format_with_streaming_set :
  ar0144_set_format None
    (mk_subdev_format V4L2_SUBDEV_FORMAT_ACTIVE 0
       (mk_framefmt 640 480 0x2008 0 0 0 0 0))
    (mk_world (mk_ar0144 framefmt_zero rect_zero true) tt [])
  = Done (0, mk_subdev_format V4L2_SUBDEV_FORMAT_ACTIVE 0
               (mk_framefmt 1280 800 0x3012 1 8 0 0 0))
      (mk_world
         (mk_ar0144 (mk_framefmt 1280 800 0x3012 1 8 0 0 0) rect_zero true) tt
         [EvMutexLock; EvMutexUnlock]).
Proof.
  refine (proj1 (C5_set_format_always_stores_fixed_format unit None
                   (mk_subdev_format V4L2_SUBDEV_FORMAT_ACTIVE 0
                      (mk_framefmt 640 480 0x2008 0 0 0 0 0))
                   (mk_ar0144 framefmt_zero rect_zero true) tt [] _)).
  right. reflexivity.
Defined.

(** C5 as stated fails. After a successful stream-on, [set_format]
    returns 0, not an error; and on a device whose [streaming] member is
    set and whose format is still zero, it returns 0 and replaces the
    stored format. *)
Lemma C5_set_format_while_streaming_succeeds :
  retval (ar0144_s_stream ack_send 1 world_attached) = Some 0
  /\ retval
       (ar0144_set_format None
          (mk_subdev_format V4L2_SUBDEV_FORMAT_ACTIVE 0
             (mk_framefmt 640 480 0x2008 0 0 0 0 0))
          world_streaming)
     = Some (0, mk_subdev_format V4L2_SUBDEV_FORMAT_ACTIVE 0
                  (mk_framefmt 1280 800 0x3012 1 8 0 0 0))
  /\ fmt (dev (final
       (ar0144_set_format None
          (mk_subdev_format V4L2_SUBDEV_FORMAT_ACTIVE 0
             (mk_framefmt 640 480 0x2008 0 0 0 0 0))
          (mk_world (mk_ar0144 framefmt_zero rect_zero true) tt []))))
     <> framefmt_zero.
Proof. vm_compute. repeat split. discriminate. Qed.

(** C6 on the acknowledging adapter. *)
Lemma C6_reset_sequence_run :
  exists r w' rest,
    ar0144_s_power ack_send (id_recv AR0144_ID_VAL) 1
      (mk_world ar0144_kzalloc tt []) = Done r w'
    /\ trace w' = [] ++ rest
    /\ before_first_bus rest
       = [ EvMutexLock; EvGpiodDirectionOutput 1; EvMsleep 2;
           EvGpiodSetValueCansleep 0; EvMsleep 10 ]
    /\ nth_error rest (length (before_first_bus rest))
       = Some (EvI2cMasterSend (addr_frame AR0144_ID_REG)).
Proof.
  apply (C6_reset_and_settle_precede_bus unit ack_send
           (id_recv AR0144_ID_VAL) 1 ar0144_kzalloc tt []).
  discriminate.
Defined.

(** C7 on the stream-on command and on the identity read. *)
Lemma C7_frames_of_two_transfers :
  ar0144_write_reg ack_send 0x301A 0x005C (mk_world ar0144_kzalloc tt [])
  = Done 4
      (mk_world ar0144_kzalloc tt [EvI2cMasterSend [0x30; 0x1A; 0x00; 0x5C]])
  /\ ar0144_read_reg ack_send (id_recv 0x1356) 0x3000 0
       (mk_world ar0144_kzalloc tt [])
     = Done (0, 0x1356)
         (mk_world ar0144_kzalloc tt
            [EvI2cMasterSend [0x30; 0x00]; EvI2cMasterRecv 2]).
Proof.
  assert (H1 : is_u16 0x301A) by (unfold is_u16; lia).
  assert (H2 : is_u16 0x005C) by (unfold is_u16; lia).
  assert (H3 : is_u16 0x3000) by (unfold is_u16; lia).
  split.
  - exact (proj1 (C7_transport_framing unit ack_send (id_recv 0x1356)
                    0x301A 0x005C ar0144_kzalloc tt [] H1 H2)).
  - refine (proj2 (C7_transport_framing unit ack_send (id_recv 0x1356)
                     0x3000 0x005C ar0144_kzalloc tt [] H3 H2)
              0 2 2 0x13 0x56 tt tt _ _ _ _ _ _);
      try reflexivity; unfold is_u8; lia.
Defined.

(** C8 fails on the code. After a probe in which everything succeeds the
    stored format is 1280x800, yet the crop rectangle [get_selection]
    reports is the zero rectangle: nothing writes [crop] after
    [devm_kzalloc]. *)
Theorem C8_crop_after_probe_is_zero :
  retval
    (ar0144_probe ack_send (id_recv AR0144_ID_VAL) probe_env_ok
       (mk_world ar0144_kzalloc tt []))
  = Some 0
  /\ fmt_width (fmt (dev world_attached)) = 1280
  /\ fmt_height (fmt (dev world_attached)) = 800
  /\ retval
       (ar0144_get_selection None
          (mk_subdev_selection V4L2_SUBDEV_FORMAT_ACTIVE 0 V4L2_SEL_TGT_CROP 0
             (mk_rect 7 7 7 7))
          world_attached)
     = Some (0, mk_subdev_selection V4L2_SUBDEV_FORMAT_ACTIVE 0
                  V4L2_SEL_TGT_CROP 0 (mk_rect 0 0 0 0))
  /\ mk_rect 0 0 0 0 <> mk_rect 0 0 1280 800.
Proof. vm_compute. repeat split. discriminate. Qed.

(** C10 on the acknowledging adapter: the write of the stream-on command
    returns the byte count 4, the stream-on that contains it returns 0. *)
Lemma C10_byte_count_stays_inside :
  retval (ar0144_write_reg ack_send 0x301A 0x005C
            (mk_world ar0144_kzalloc tt []))
  = Some 4
  /\ retval (ar0144_s_stream ack_send 1 (mk_world ar0144_kzalloc tt []))
     = Some 0.
Proof.
  pose proof (C10_success_returns_zero unit ack_send (id_recv AR0144_ID_VAL)
                ar0144_kzalloc tt []) as (Hw & _ & Hs & _).
  split.
  - exact (Hw 0x301A 0x005C).
  - destruct (Hs 1) as (r & w' & E & _ & H0).
    rewrite E. cbn [retval]. f_equal. apply H0. reflexivity.
Defined.

(** * Further properties of the driver *)

Lemma writes_of_are_write_events (p : list ar0144_reg_value) :
  forallb is_write_event (writes_of p) = true.
Proof. induction p as [|s p IH]; [reflexivity | exact IH]. Qed.

Lemma write_events_not_slept (evs : list event) :
  forallb is_write_event evs = true -> slept evs = 0.
Proof.
  induction evs as [|e evs IH]; [reflexivity|]. cbn [forallb].
  intros H. apply andb_true_iff in H. destruct H as [He H].
  destruct e; try discriminate; cbn [slept]; auto.
Qed.

Lemma write_events_no_mutex (evs : list event) :
  forallb is_write_event evs = true -> filter is_mutex_event evs = [].
Proof.
  induction evs as [|e evs IH]; [reflexivity|]. cbn [forallb].
  intros H. apply andb_true_iff in H. destruct H as [He H].
  destruct e; try discriminate; cbn [filter is_mutex_event]; auto.
Qed.

Lemma write_events_no_gpio (evs : list event) :
  forallb is_write_event evs = true -> filter is_gpio_event evs = [].
Proof.
  induction evs as [|e evs IH]; [reflexivity|]. cbn [forallb].
  intros H. apply andb_true_iff in H. destruct H as [He H].
  destruct e; try discriminate; cbn [filter is_gpio_event]; auto.
Qed.

Lemma slept_app (t1 t2 : list event) : slept (t1 ++ t2) = slept t1 + slept t2.
Proof.
  induction t1 as [|e t1 IH]; [reflexivity|].
  destruct e; cbn [app slept]; rewrite IH; lia.
Qed.

Lemma firstn_frames_of (k : nat) (p : list ar0144_reg_value) :
  firstn k (frames_of p) = frames_of (firstn k p).
Proof. unfold frames_of. apply firstn_map. Qed.

Lemma be16_range (buf : list Z) : 0 <= be16 buf < 2 ^ 16.
Proof.
  unfold be16. change (2 ^ 16) with 65536.
  pose proof (Z.mod_pos_bound (nth 0 buf 0) 256 ltac:(lia)).
  pose proof (Z.mod_pos_bound (nth 1 buf 0) 256 ltac:(lia)).
  lia.
Qed.

Lemma be16_of_bytes (v : Z) : is_u16 v -> be16 [v / 256; v mod 256] = v.
Proof.
  unfold is_u16, be16. change (2 ^ 16) with 65536. intros H. cbn [nth].
  rewrite Z.mod_mod by lia.
  rewrite (Z.mod_small (v / 256) 256).
  - pose proof (Z.div_mod v 256 ltac:(lia)). lia.
  - split; [apply Z.div_pos; lia | apply Z.div_lt_upper_bound; lia].
Qed.

Section StreamProperties.

Variable Bus : Type.
Variable send : Bus -> list Z -> Z * Bus.

(** ** The runner on any adapter *)

(** Either the adapter takes a whole table, or the table splits at the
    first entry it refuses. *)
Lemma bus_accepts_or_splits (p : list ar0144_reg_value) (b : Bus) :
  bus_accepts send b (frames_of p) = true
  \/ exists pre s post,
       p = pre ++ s :: post
       /\ bus_accepts send b (frames_of pre) = true
       /\ fst (send (bus_after send b (frames_of pre)) (frame_of s)) < 0.
Proof.
  revert b. induction p as [|s p IH]; intros b; [left; reflexivity|].
  cbn [frames_of map bus_accepts].
  destruct (send b (frame_of s)) as [r b'] eqn:E.
  destruct (Z.leb_spec 0 r) as [Hr|Hr].
  - destruct (IH b') as [Hok | (pre & s' & post & -> & Hpre & Hs')].
    + left. exact Hok.
    + right. exists (s :: pre), s', post. split; [reflexivity|].
      cbn [frames_of map bus_accepts bus_after]. rewrite E. cbn [snd].
      split; [|exact Hs'].
      apply andb_true_iff. split; [now apply Z.leb_le | exact Hpre].
  - right. exists [], s, p. split; [reflexivity|]. split; [reflexivity|].
    cbn [frames_of map bus_after]. rewrite E. exact Hr.
Qed.

Lemma bus_accepts_prefix_fails (pre : list ar0144_reg_value) s post (b : Bus) :
  bus_accepts send b (frames_of pre) = true ->
  fst (send (bus_after send b (frames_of pre)) (frame_of s)) < 0 ->
  bus_accepts send b (frames_of (pre ++ s :: post)) = false.
Proof.
  intros Hpre Hs. rewrite frames_of_app, bus_accepts_app, Hpre.
  cbn [andb frames_of map bus_accepts].
  destruct (send (bus_after send b (frames_of pre)) (frame_of s)) as [r b'].
  cbn [fst] in Hs. apply andb_false_iff. left. apply Z.leb_gt. exact Hs.
Qed.

(** What a run of the runner on adapter state [b] comes to, whatever the
    device structure and the trace so far. *)
Lemma runner_uniform (p : list ar0144_reg_value) (b : Bus) :
  exists r b' evs,
    (forall d tr,
        ar0144_set_register_array send p (mk_world d b tr)
        = Done r (mk_world d b' (tr ++ evs)))
    /\ r <= 0
    /\ (r = 0 <-> bus_accepts send b (frames_of p) = true)
    /\ (bus_accepts send b (frames_of p) = true ->
        evs = writes_of p /\ b' = bus_after send b (frames_of p))
    /\ forallb is_write_event evs = true
    /\ exists k, (k <= length p)%nat
         /\ register_writes evs = firstn k (frames_of p)
         /\ (r = 0 -> k = length p).
Proof.
  destruct (bus_accepts_or_splits p b)
    as [Hok | (pre & s & post & -> & Hpre & Hs)].
  - exists 0, (bus_after send b (frames_of p)), (writes_of p).
    split; [intros d tr; now apply set_register_array_ok|].
    split; [lia|]. split; [tauto|]. split; [auto|].
    split; [apply writes_of_are_write_events|].
    exists (length p). split; [lia|].
    rewrite register_writes_writes_of, firstn_frames_of, firstn_all. auto.
  - exists (fst (send (bus_after send b (frames_of pre)) (frame_of s))),
      (snd (send (bus_after send b (frames_of pre)) (frame_of s))),
      (writes_of pre
         ++ [EvI2cMasterSend (frame_of s);
             EvDevErr
               (write_reg_error
                  (fst (send (bus_after send b (frames_of pre)) (frame_of s)))
                  (reg s) (val s))]).
    pose proof (bus_accepts_prefix_fails pre s post b Hpre Hs) as Hno.
    split; [intros d tr; now apply set_register_array_fail|].
    split; [lia|]. split; [split; [lia | congruence]|].
    split; [congruence|].
    split.
    + rewrite forallb_app, writes_of_are_write_events. reflexivity.
    + exists (S (length pre)). split.
      * rewrite length_app. cbn [length]. lia.
      * split; [|lia].
        rewrite register_writes_app, register_writes_writes_of.
        cbn [register_writes frame_of write_frame length Z.of_nat].
        change (Z.of_nat 4 =? 4) with true. cbv iota.
        rewrite firstn_frames_of. f_equal.
        replace (S (length pre)) with (length (pre ++ [s]))
          by (rewrite length_app; cbn [length]; lia).
        change (pre ++ s :: post) with (pre ++ [s] ++ post).
        rewrite app_assoc, firstn_app, firstn_all, Nat.sub_diag.
        cbn [firstn]. now rewrite app_nil_r, frames_of_app.
Qed.

Lemma bind_ext {A B} (m : M Bus A) (k1 k2 : A -> M Bus B) w :
  (forall a w', k1 a w' = k2 a w') -> bind Bus m k1 w = bind Bus m k2 w.
Proof. intros H. unfold bind. destruct (m w); [apply H | reflexivity]. Qed.

Lemma bind_cong {A B} (m1 m2 : M Bus A) (k : A -> M Bus B) w :
  m1 w = m2 w -> bind Bus m1 k w = bind Bus m2 k w.
Proof. intros H. unfold bind. now rewrite H. Qed.

Lemma runner_app_eq (p q : list ar0144_reg_value) w :
  ar0144_set_register_array send (p ++ q) w
  = bind Bus (ar0144_set_register_array send p)
      (fun ret =>
         if ret <? 0 then pure Bus ret else ar0144_set_register_array send q)
      w.
Proof.
  revert w. induction p as [|s p IH]; intros w; [reflexivity|].
  cbn [app ar0144_set_register_array]. unfold bind at 1 2 3.
  destruct (ar0144_write_reg send (reg s) (val s) w) as [ret w1|w1];
    [|reflexivity].
  destruct (ret <? 0) eqn:E.
  - unfold pure. now rewrite E.
  - apply IH.
Qed.

(** ** Stream-on on any adapter *)

Lemma s_stream_start_unfold (enable : Z) w :
  enable <> 0 ->
  ar0144_s_stream send enable w
  = bind Bus (emit Bus EvMutexLock) (fun _ =>
      bind Bus
        (bind Bus (ar0144_set_register_array send ar0144at_pll_27mhz)
           (fun ret =>
              if ret <? 0 then pure Bus ret
              else
                bind Bus (emit Bus (EvMsleep 100)) (fun _ =>
                  ar0144_set_register_array send after_pll)))
        (fun ret => bind Bus (emit Bus EvMutexUnlock) (fun _ => pure Bus ret)))
      w.
Proof.
  intros Hen. apply Z.eqb_neq in Hen. unfold ar0144_s_stream. rewrite Hen.
  apply bind_ext. intros _ w1. apply bind_cong.
  apply bind_ext. intros r1 w2. destruct (r1 <? 0); [reflexivity|].
  apply bind_ext. intros _ w3. unfold after_pll.
  rewrite runner_app_eq. apply bind_ext. intros r2 w4.
  destruct (r2 <? 0); [reflexivity|].
  rewrite runner_app_eq. apply bind_ext. intros r3 w5.
  destruct (r3 <? 0); [reflexivity|].
  rewrite runner_app_eq. apply bind_ext. intros r4 w6.
  destruct (r4 <? 0); [reflexivity|].
  rewrite runner_app_eq. reflexivity.
Qed.

Lemma s_stream_start_uniform (enable : Z) (b : Bus) :
  enable <> 0 ->
  exists r b' mid ef,
    (forall d tr,
        ar0144_s_stream send enable (mk_world d b tr)
        = Done r (mk_world d b' (tr ++ EvMutexLock :: mid ++ [EvMutexUnlock])))
    /\ (forall d tr,
          ar0144_set_register_array send (concat start_tables) (mk_world d b tr)
          = Done r (mk_world d b' (tr ++ ef)))
    /\ register_writes mid = register_writes ef
    /\ slept mid
       = (if bus_accepts send b (frames_of ar0144at_pll_27mhz) then 100 else 0)
    /\ filter is_mutex_event mid = []
    /\ filter is_gpio_event mid = [].
Proof.
  intros Hen.
  destruct (runner_uniform ar0144at_pll_27mhz b)
    as (r1 & b1 & e1 & E1 & Hle1 & Hiff1 & Hok1 & Hw1 & _).
  destruct (Z.ltb_spec r1 0) as [Hneg|Hpos].
  - exists r1, b1, e1, e1.
    assert (Hacc : bus_accepts send b (frames_of ar0144at_pll_27mhz) = false).
    { destruct (bus_accepts send b (frames_of ar0144at_pll_27mhz)); [|reflexivity].
      destruct Hiff1 as [_ H]. specialize (H eq_refl). lia. }
    split; [|split; [|split; [|split; [|split]]]].
    + intros d tr. rewrite s_stream_start_unfold by exact Hen.
      erewrite bind_Done by apply emit_run.
      erewrite bind_Done.
      2:{ erewrite bind_Done by apply E1.
          replace (r1 <? 0) with true by (symmetry; now apply Z.ltb_lt).
          reflexivity. }
      erewrite bind_Done by apply emit_run. unfold pure.
      rewrite <- !app_assoc. reflexivity.
    + intros d tr. rewrite start_tables_concat, runner_app_eq.
      erewrite bind_Done by apply E1.
      replace (r1 <? 0) with true by (symmetry; now apply Z.ltb_lt).
      reflexivity.
    + reflexivity.
    + rewrite Hacc. now apply write_events_not_slept.
    + now apply write_events_no_mutex.
    + now apply write_events_no_gpio.
  - assert (r1 = 0) by lia. subst r1.
    assert (Hacc : bus_accepts send b (frames_of ar0144at_pll_27mhz) = true)
      by now apply Hiff1.
    destruct (Hok1 Hacc) as [-> ->].
    destruct (runner_uniform after_pll
                (bus_after send b (frames_of ar0144at_pll_27mhz)))
      as (r2 & b2 & e2 & E2 & Hle2 & _ & _ & Hw2 & _).
    exists r2, b2, (writes_of ar0144at_pll_27mhz ++ EvMsleep 100 :: e2),
      (writes_of ar0144at_pll_27mhz ++ e2).
    split; [|split; [|split; [|split; [|split]]]].
    + intros d tr. rewrite s_stream_start_unfold by exact Hen.
      erewrite bind_Done by apply emit_run.
      erewrite bind_Done.
      2:{ erewrite bind_Done by apply E1.
          change (0 <? 0) with false. cbv iota.
          erewrite bind_Done by apply emit_run. apply E2. }
      erewrite bind_Done by apply emit_run. unfold pure.
      rewrite <- !app_assoc. reflexivity.
    + intros d tr. rewrite start_tables_concat.
      change (ar0144at_mipi_2lane_12bit ++ ar0144at_1280x800_60fps
              ++ ar0144at_context_b_2x2_binning
              ++ ar0144at_embedded_data_stats ++ ar0144at_start_stream)
        with after_pll.
      rewrite runner_app_eq.
      erewrite bind_Done by apply E1.
      change (0 <? 0) with false. cbv iota.
      rewrite E2, <- app_assoc. reflexivity.
    + rewrite !register_writes_app. reflexivity.
    + rewrite Hacc, slept_app. cbn [slept].
      rewrite (write_events_not_slept _ (writes_of_are_write_events _)).
      rewrite (write_events_not_slept _ Hw2). reflexivity.
    + rewrite filter_app. cbn [filter is_mutex_event].
      rewrite (write_events_no_mutex _ (writes_of_are_write_events _)).
      now rewrite (write_events_no_mutex _ Hw2).
    + rewrite filter_app. cbn [filter is_gpio_event].
      rewrite (write_events_no_gpio _ (writes_of_are_write_events _)).
      now rewrite (write_events_no_gpio _ Hw2).
Qed.

(** ** Stream-off on any adapter *)

Lemma s_stream_stop_uniform (b : Bus) :
  exists r b' mid,
    (forall d tr,
        ar0144_s_stream send 0 (mk_world d b tr)
        = Done r (mk_world d b' (tr ++ EvMutexLock :: mid ++ [EvMutexUnlock])))
    /\ (forall d tr,
          ar0144_set_register_array send ar0144at_stop_stream (mk_world d b tr)
          = Done r (mk_world d b' (tr ++ mid)))
    /\ forallb is_write_event mid = true.
Proof.
  destruct (runner_uniform ar0144at_stop_stream b)
    as (r & b' & e & E & _ & _ & _ & Hw & _).
  exists r, b', e. split; [|split; [exact E | exact Hw]].
  intros d tr. unfold ar0144_s_stream.
  erewrite bind_Done by apply emit_run.
  change (0 =? 0) with true. cbv iota.
  erewrite bind_Done by apply E.
  erewrite bind_Done by apply emit_run. unfold pure.
  rewrite <- !app_assoc. reflexivity.
Qed.

(** X1. On every adapter the runner returns 0 or a negative value, and 0
    exactly when the adapter accepts every entry of the table. What it
    writes is always the first [k] entries of the table, all of them
    when it returns 0, and it makes no call other than its writes and
    the error line of a refused one. *)
Theorem X1_runner_returns_zero_iff_all_accepted
    (p : list ar0144_reg_value) d b tr :
  exists r b' evs k,
    ar0144_set_register_array send p (mk_world d b tr)
    = Done r (mk_world d b' (tr ++ evs))
    /\ r <= 0
    /\ (r = 0 <-> bus_accepts send b (frames_of p) = true)
    /\ (k <= length p)%nat
    /\ register_writes evs = firstn k (frames_of p)
    /\ (r = 0 -> k = length p)
    /\ forallb is_write_event evs = true.
Proof.
  destruct (runner_uniform p b)
    as (r & b' & evs & E & Hle & Hiff & _ & Hw & k & Hk & Hrw & Hk0).
  exists r, b', evs, k. repeat split; auto; apply Hiff.
Qed.

(** X2. The runner on a concatenation is the runner on the first part
    followed, unless that returned a negative value, by the runner on
    the second. So after an accepted first part the run goes on as the
    run of the second part from where the first left the adapter, and
    when the first part is refused the second plays no role. *)
Theorem X2_runner_composes_over_append (p q : list ar0144_reg_value) :
  (forall w,
      ar0144_set_register_array send (p ++ q) w
      = bind Bus (ar0144_set_register_array send p)
          (fun ret =>
             if ret <? 0 then pure Bus ret
             else ar0144_set_register_array send q)
          w)
  /\ (forall d b tr,
        bus_accepts send b (frames_of p) = true ->
        ar0144_set_register_array send (p ++ q) (mk_world d b tr)
        = ar0144_set_register_array send q
            (mk_world d (bus_after send b (frames_of p)) (tr ++ writes_of p)))
  /\ (forall d b tr,
        bus_accepts send b (frames_of p) = false ->
        ar0144_set_register_array send (p ++ q) (mk_world d b tr)
        = ar0144_set_register_array send p (mk_world d b tr)).
Proof.
  split; [|split].
  - intros w. apply runner_app_eq.
  - intros d b tr H. rewrite runner_app_eq.
    erewrite bind_Done by (apply set_register_array_ok; exact H).
    reflexivity.
  - intros d b tr H. rewrite runner_app_eq.
    destruct (runner_uniform p b) as (r & b' & evs & E & Hle & Hiff & _).
    erewrite bind_Done by apply E. rewrite E.
    assert (r < 0).
    { destruct (Z.eq_dec r 0) as [H0|H0]; [|lia].
      apply Hiff in H0. congruence. }
    replace (r <? 0) with true by (symmetry; now apply Z.ltb_lt).
    reflexivity.
Qed.

(** X3. On every adapter a stream-on returns what the runner returns on
    the six tables laid end to end, leaves the adapter in the same
    state and makes the same register writes. So its writes are always
    the first [k] frames of the 32-frame start sequence, and it returns
    0 exactly when the adapter accepts all 32. *)
Theorem X3_stream_on_is_one_flat_table (enable : Z) d b tr :
  enable <> 0 ->
  exists r b' es ef k,
    ar0144_s_stream send enable (mk_world d b tr)
    = Done r (mk_world d b' (tr ++ es))
    /\ ar0144_set_register_array send (concat start_tables) (mk_world d b tr)
       = Done r (mk_world d b' (tr ++ ef))
    /\ register_writes es = register_writes ef
    /\ (r = 0 <->
        bus_accepts send b (frames_of (concat start_tables)) = true)
    /\ register_writes es = firstn k (frames_of (concat start_tables))
    /\ (r = 0 -> k = 32%nat).
Proof.
  intros Hen.
  destruct (s_stream_start_uniform enable b Hen)
    as (r & b' & mid & ef & Es & Ef & Hrw & _).
  destruct (runner_uniform (concat start_tables) b)
    as (r' & b'' & ef' & Ef' & _ & Hiff & _ & _ & k & _ & Hk & Hk0).
  pose proof (Ef ar0144_kzalloc []) as E1.
  rewrite (Ef' ar0144_kzalloc []) in E1. cbn [app] in E1.
  injection E1 as -> -> ->.
  exists r, b', (EvMutexLock :: mid ++ [EvMutexUnlock]), ef, k.
  split; [apply Es|]. split; [apply Ef|].
  assert (Hes : register_writes (EvMutexLock :: mid ++ [EvMutexUnlock])
                = register_writes ef).
  { cbn [register_writes]. rewrite register_writes_app, Hrw.
    cbn [register_writes]. apply app_nil_r. }
  split; [exact Hes|]. split; [exact Hiff|].
  split; [now rewrite Hes | exact Hk0].
Qed.

(** X4. A stream-off never sleeps. A stream-on sleeps 100 ms when the
    adapter accepts the whole PLL table, and not at all when a PLL write
    is refused. *)
Theorem X4_stream_sleeps_only_after_pll (enable : Z) d b tr :
  exists r b' evs,
    ar0144_s_stream send enable (mk_world d b tr)
    = Done r (mk_world d b' (tr ++ evs))
    /\ slept evs
       = (if enable =? 0 then 0
          else if bus_accepts send b (frames_of ar0144at_pll_27mhz) then 100
               else 0).
Proof.
  destruct (Z.eqb_spec enable 0) as [-> | Hen].
  - destruct (s_stream_stop_uniform b) as (r & b' & mid & Es & _ & Hw).
    exists r, b', (EvMutexLock :: mid ++ [EvMutexUnlock]).
    split; [apply Es|]. cbn [slept]. rewrite slept_app.
    rewrite (write_events_not_slept _ Hw). reflexivity.
  - destruct (s_stream_start_uniform enable b Hen)
      as (r & b' & mid & ef & Es & _ & _ & Hs & _).
    exists r, b', (EvMutexLock :: mid ++ [EvMutexUnlock]).
    split; [apply Es|]. cbn [slept]. rewrite slept_app, Hs. cbn [slept]. lia.
Qed.

(** X5. Every stream-on and stream-off, failed or not, takes the lock as
    its first call and releases it as its last, touches the lock nowhere
    between, and never drives the reset line. *)
Theorem X5_stream_holds_lock_throughout (enable : Z) d b tr :
  exists r b' mid,
    ar0144_s_stream send enable (mk_world d b tr)
    = Done r (mk_world d b' (tr ++ EvMutexLock :: mid ++ [EvMutexUnlock]))
    /\ filter is_mutex_event mid = []
    /\ filter is_gpio_event mid = [].
Proof.
  destruct (Z.eq_dec enable 0) as [-> | Hen].
  - destruct (s_stream_stop_uniform b) as (r & b' & mid & Es & _ & Hw).
    exists r, b', mid. split; [apply Es|].
    split; [now apply write_events_no_mutex | now apply write_events_no_gpio].
  - destruct (s_stream_start_uniform enable b Hen)
      as (r & b' & mid & ef & Es & _ & _ & _ & Hm & Hg).
    exists r, b', mid. auto.
Qed.

(** X16. A stream-off makes exactly one register write, the stop
    command, whether or not the adapter accepts it, and returns 0 unless
    that write is refused, in which case it returns the send's value. *)
Theorem X16_stream_off_writes_stop_once d b tr :
  exists r b' evs,
    ar0144_s_stream send 0 (mk_world d b tr)
    = Done r (mk_world d b' (tr ++ evs))
    /\ register_writes evs = [write_frame 0x301A 0x0058]
    /\ r = (if fst (send b (write_frame 0x301A 0x0058)) <? 0
            then fst (send b (write_frame 0x301A 0x0058)) else 0)
    /\ b' = snd (send b (write_frame 0x301A 0x0058)).
Proof.
  unfold ar0144_s_stream.
  erewrite bind_Done by apply emit_run.
  change (0 =? 0) with true. cbv iota.
  unfold ar0144at_stop_stream, rv. cbn [ar0144_set_register_array reg val].
  unfold bind at 1 2. rewrite write_reg_run.
  destruct (send b (write_frame 0x301A 0x0058)) as [r0 b0]. cbn [fst snd].
  destruct (r0 <? 0); unfold pure, bind, emit; cbn [dev i2c trace];
    do 3 eexists; (split; [rewrite <- !app_assoc; reflexivity|]);
    repeat split.
Qed.

End StreamProperties.

Section MoreProperties.

Variable Bus : Type.
Variable send : Bus -> list Z -> Z * Bus.
Variable recv : Bus -> list Z -> Z -> Z * list Z * Bus.

(** ** The register read on any adapter *)

Lemma read_reg_send_fail (r v0 : Z) d b tr :
  fst (send b (addr_frame r)) < 0 ->
  ar0144_read_reg send recv r v0 (mk_world d b tr)
  = Done (fst (send b (addr_frame r)), v0)
      (mk_world d (snd (send b (addr_frame r)))
         (tr ++ [ EvI2cMasterSend (addr_frame r);
                  EvDevErr
                    (read_reg_write_error (fst (send b (addr_frame r))) r) ])).
Proof.
  intros H. apply Z.ltb_lt in H. unfold ar0144_read_reg.
  change [u8 (Z.shiftr r 8); u8 (Z.land r 255)] with (addr_frame r).
  erewrite bind_Done by apply master_send_run. rewrite H.
  erewrite bind_Done by apply emit_run. unfold pure.
  rewrite <- app_assoc. reflexivity.
Qed.

Lemma read_reg_recv_fail (r v0 : Z) d b tr :
  0 <= fst (send b (addr_frame r)) ->
  fst (fst (recv (snd (send b (addr_frame r))) (addr_frame r) 2)) < 0 ->
  ar0144_read_reg send recv r v0 (mk_world d b tr)
  = Done (fst (fst (recv (snd (send b (addr_frame r))) (addr_frame r) 2)), v0)
      (mk_world d (snd (recv (snd (send b (addr_frame r))) (addr_frame r) 2))
         (tr ++ [ EvI2cMasterSend (addr_frame r); EvI2cMasterRecv 2;
                  EvDevErr
                    (read_reg_read_error
                       (fst (fst (recv (snd (send b (addr_frame r)))
                                    (addr_frame r) 2))) r) ])).
Proof.
  intros H1 H2. apply Z.ltb_ge in H1. apply Z.ltb_lt in H2.
  unfold ar0144_read_reg.
  change [u8 (Z.shiftr r 8); u8 (Z.land r 255)] with (addr_frame r).
  erewrite bind_Done by apply master_send_run. rewrite H1.
  erewrite bind_Done by apply master_recv_run. cbv beta iota. rewrite H2.
  erewrite bind_Done by apply emit_run. unfold pure.
  rewrite <- !app_assoc. reflexivity.
Qed.

Lemma bus_reads_none (b : Bus) (r : Z) :
  bus_reads send recv b r = None ->
  fst (send b (addr_frame r)) < 0
  \/ (0 <= fst (send b (addr_frame r))
      /\ fst (fst (recv (snd (send b (addr_frame r))) (addr_frame r) 2)) < 0).
Proof.
  unfold bus_reads. destruct (send b (addr_frame r)) as [r1 b1]. cbn [fst snd].
  destruct (Z.ltb_spec r1 0) as [H1|H1]; [left; exact H1|].
  destruct (recv b1 (addr_frame r) 2) as [[r2 buf] b2]. cbn [fst].
  destruct (Z.ltb_spec r2 0) as [H2|H2]; [right; split; assumption | discriminate].
Qed.

Lemma bus_reads_some (b : Bus) (r : Z) buf b2 :
  bus_reads send recv b r = Some (buf, b2) ->
  0 <= fst (send b (addr_frame r))
  /\ 0 <= fst (fst (recv (snd (send b (addr_frame r))) (addr_frame r) 2)).
Proof.
  unfold bus_reads. destruct (send b (addr_frame r)) as [r1 b1]. cbn [fst snd].
  destruct (Z.ltb_spec r1 0) as [H1|H1]; [discriminate|].
  destruct (recv b1 (addr_frame r) 2) as [[r2 buf'] b2']. cbn [fst].
  destruct (Z.ltb_spec r2 0) as [H2|H2]; [discriminate|]. auto.
Qed.

(** A failed read: a negative return, [*val] as it was, the address send
    first, then either its error line or the receive and its error line. *)
Lemma read_reg_fails_uniform (r v0 : Z) (b : Bus) :
  bus_reads send recv b r = None ->
  exists ret b' evs,
    ret < 0
    /\ (forall d tr,
          ar0144_read_reg send recv r v0 (mk_world d b tr)
          = Done (ret, v0)
              (mk_world d b' (tr ++ EvI2cMasterSend (addr_frame r) :: evs)))
    /\ (evs = [EvDevErr (read_reg_write_error ret r)]
        \/ evs = [EvI2cMasterRecv 2; EvDevErr (read_reg_read_error ret r)]).
Proof.
  intros H. destruct (bus_reads_none b r H) as [H1 | [H1 H2]].
  - do 3 eexists. split; [exact H1|]. split.
    + intros d tr. now apply read_reg_send_fail.
    + left. reflexivity.
  - do 3 eexists. split; [exact H2|]. split.
    + intros d tr. now apply read_reg_recv_fail.
    + right. reflexivity.
Qed.

(** ** Power-up on any adapter *)

Lemma s_power_on_with_read (on : Z) d b tr rv b1 e_read :
  on <> 0 ->
  (forall d tr,
      ar0144_read_reg send recv AR0144_ID_REG 0 (mk_world d b tr)
      = Done rv (mk_world d b1 (tr ++ e_read))) ->
  ar0144_s_power send recv on (mk_world d b tr)
  = bind Bus
      (let '(ret, reg_val) := rv in
       if ret <? 0 then pure Bus ret
       else if negb (reg_val =? AR0144_ID_VAL) then
         bind Bus (emit Bus (EvDevErr (wrong_chip_id reg_val AR0144_ID_VAL)))
           (fun _ => pure Bus (- ENODEV))
       else
         ar0144_set_register_array send ar0144at_rev4_recommended_setting)
      (fun ret => bind Bus (emit Bus EvMutexUnlock) (fun _ => pure Bus ret))
      (mk_world d b1 (tr ++ reset_sequence ++ e_read)).
Proof.
  intros Hon E. apply Z.eqb_neq in Hon.
  unfold ar0144_s_power.
  do 2 erewrite bind_Done by apply emit_run. rewrite Hon.
  unfold bind at 1.
  do 3 erewrite bind_Done by apply emit_run.
  unfold bind at 1. rewrite E.
  unfold bind at 3. unfold reset_sequence.
  rewrite <- !app_assoc. reflexivity.
Qed.

Lemma s_power_on_uniform (on : Z) (b : Bus) :
  on <> 0 ->
  exists r b' post,
    (forall d tr,
        ar0144_s_power send recv on (mk_world d b tr)
        = Done r
            (mk_world d b' (tr ++ reset_sequence ++ post ++ [EvMutexUnlock])))
    /\ power_up_outcome send recv b r post.
Proof.
  intros Hon.
  destruct (bus_reads send recv b AR0144_ID_REG) as [[buf b2]|] eqn:Hread.
  - destruct (Z.eq_dec (be16 buf) AR0144_ID_VAL) as [Hid|Hid].
    + destruct (runner_uniform Bus send ar0144at_rev4_recommended_setting b2)
        as (r & b' & e & E & Hle & Hiff & _ & Hw & k & _ & Hk & Hk0).
      exists r, b',
        ([EvI2cMasterSend (addr_frame AR0144_ID_REG); EvI2cMasterRecv 2] ++ e).
      split.
      * intros d tr.
        rewrite s_power_on_with_read
          with (rv := (0, be16 buf)) (b1 := b2)
               (e_read := [EvI2cMasterSend (addr_frame AR0144_ID_REG);
                           EvI2cMasterRecv 2])
          by (try assumption; intros; now apply read_reg_ok).
        cbv beta iota. change (0 <? 0) with false. rewrite Hid, Z.eqb_refl.
        cbn [negb].
        erewrite bind_Done by apply E.
        erewrite bind_Done by apply emit_run. unfold pure.
        rewrite <- !app_assoc. reflexivity.
      * right. right. exists buf, b2, e. repeat split; auto; try tauto.
        exists k. auto.
    + exists (- ENODEV), b2,
        [ EvI2cMasterSend (addr_frame AR0144_ID_REG); EvI2cMasterRecv 2;
          EvDevErr (wrong_chip_id (be16 buf) AR0144_ID_VAL) ].
      split.
      * intros d tr.
        rewrite s_power_mismatch_run with (buf := buf) (b2 := b2)
          by assumption.
        reflexivity.
      * right. left. exists buf, b2. auto.
  - destruct (read_reg_fails_uniform AR0144_ID_REG 0 b Hread)
      as (ret & b' & evs & Hneg & E & Hevs).
    exists ret, b', (EvI2cMasterSend (addr_frame AR0144_ID_REG) :: evs).
    split.
    + intros d tr.
      rewrite s_power_on_with_read
        with (rv := (ret, 0)) (b1 := b')
             (e_read := EvI2cMasterSend (addr_frame AR0144_ID_REG) :: evs)
        by assumption.
      cbv beta iota.
      replace (ret <? 0) with true by (symmetry; now apply Z.ltb_lt).
      unfold bind at 1. unfold pure at 1.
      erewrite bind_Done by apply emit_run. unfold pure.
      rewrite <- !app_assoc. reflexivity.
    + left. split; [exact Hread|]. split; [exact Hneg|]. exists evs. auto.
Qed.

(** C2, as the code has it. Neither [ar0144_s_stream] nor
    [ar0144_s_power] looks at a state of the device. For a given state
    of the adapter each returns the same value, makes the same calls and
    leaves the adapter in the same state whatever [struct ar0144] holds
    and whatever was called before, and leaves [struct ar0144] as it
    was. The value is 0 or negative, never an error for the state, and
    it is 0 when the transfers go through (and, for a power-up, the
    identity is the expected one). *)
Theorem C2_operations_do_not_check_state (n : Z) (b : Bus) :
  (exists r b' evs,
      (forall d tr,
          ar0144_s_stream send n (mk_world d b tr)
          = Done r (mk_world d b' (tr ++ evs)))
      /\ r <= 0
      /\ (bus_accepts send b
            (frames_of (if n =? 0 then ar0144at_stop_stream
                        else concat start_tables)) = true ->
          r = 0))
  /\ (exists r b' evs,
        (forall d tr,
            ar0144_s_power send recv n (mk_world d b tr)
            = Done r (mk_world d b' (tr ++ evs)))
        /\ r <= 0
        /\ (n = 0 -> r = 0)
        /\ (forall buf b2,
              bus_reads send recv b AR0144_ID_REG = Some (buf, b2) ->
              be16 buf = AR0144_ID_VAL ->
              bus_accepts send b2
                (frames_of ar0144at_rev4_recommended_setting) = true ->
              r = 0)).
Proof.
  split.
  - assert (U : exists r b' evs,
               forall d tr,
                 ar0144_s_stream send n (mk_world d b tr)
                 = Done r (mk_world d b' (tr ++ evs))).
    { destruct (Z.eq_dec n 0) as [-> | Hn].
      - destruct (s_stream_stop_uniform Bus send b) as (r & b' & mid & E & _).
        exists r, b', (EvMutexLock :: mid ++ [EvMutexUnlock]). exact E.
      - destruct (s_stream_start_uniform Bus send n b Hn)
          as (r & b' & mid & ef & E & _).
        exists r, b', (EvMutexLock :: mid ++ [EvMutexUnlock]). exact E. }
    destruct U as (r & b' & evs & E). exists r, b', evs.
    split; [exact E|]. split.
    + destruct (io_s_stream Bus send n b []) as (r0 & b0 & e0 & Hle & E0).
      specialize (E0 ar0144_kzalloc). rewrite E in E0.
      injection E0 as -> _ _. exact Hle.
    + intros Hacc. pose proof (E ar0144_kzalloc []) as E0.
      destruct (Z.eqb_spec n 0) as [-> | Hn].
      * rewrite s_stream_stop_run in E0 by exact Hacc. now injection E0.
      * rewrite s_stream_start_run in E0 by assumption. now injection E0.
  - assert (U : exists r b' evs,
               forall d tr,
                 ar0144_s_power send recv n (mk_world d b tr)
                 = Done r (mk_world d b' (tr ++ evs))).
    { destruct (Z.eq_dec n 0) as [-> | Hn].
      - exists 0, b, [EvMutexLock; EvGpiodDirectionOutput 1; EvMutexUnlock].
        intros d tr. apply s_power_off_run.
      - destruct (s_power_on_uniform n b Hn) as (r & b' & post & E & _).
        exists r, b', (reset_sequence ++ post ++ [EvMutexUnlock]). exact E. }
    destruct U as (r & b' & evs & E). exists r, b', evs.
    split; [exact E|]. split; [|split].
    + destruct (io_s_power Bus send recv n b []) as (r0 & b0 & e0 & Hle & E0).
      specialize (E0 ar0144_kzalloc). rewrite E in E0.
      injection E0 as -> _ _. exact Hle.
    + intros ->. pose proof (E ar0144_kzalloc []) as E0.
      rewrite s_power_off_run in E0. now injection E0.
    + intros buf b2 Hread Hid Hacc. pose proof (E ar0144_kzalloc []) as E0.
      destruct (Z.eq_dec n 0) as [-> | Hn].
      * rewrite s_power_off_run in E0. now injection E0.
      * rewrite s_power_ok_run with (buf := buf) (b2 := b2) in E0
          by assumption.
        now injection E0.
Qed.

Lemma s_power_post_measures (b : Bus) r post :
  power_up_outcome send recv b r post ->
  filter is_mutex_event post = []
  /\ filter is_gpio_event post = []
  /\ slept post = 0.
Proof.
  intros [(_ & _ & evs & -> & [-> | ->])
         | [(buf & b2 & _ & _ & _ & ->)
           | (buf & b2 & e & _ & _ & -> & Hw & _)]];
    try (repeat split; reflexivity).
  cbn [app filter is_mutex_event is_gpio_event slept].
  rewrite (write_events_no_mutex _ Hw), (write_events_no_gpio _ Hw),
    (write_events_not_slept _ Hw).
  repeat split.
Qed.

(** X6. Every call of [ar0144_s_power] takes the lock first and releases
    it last, once each. With [on] zero it drives the reset line active
    and does nothing else. With [on] not zero it drives the line active,
    then inactive, and never again: also a power-up that fails leaves
    the sensor out of reset; and it sleeps 12 ms in all, whatever the
    adapter does. *)
Theorem X6_power_lock_and_reset_line (on : Z) d b tr :
  exists r b' mid,
    ar0144_s_power send recv on (mk_world d b tr)
    = Done r (mk_world d b' (tr ++ EvMutexLock :: mid ++ [EvMutexUnlock]))
    /\ filter is_mutex_event mid = []
    /\ filter is_gpio_event mid
       = (if on =? 0 then [EvGpiodDirectionOutput 1]
          else [EvGpiodDirectionOutput 1; EvGpiodSetValueCansleep 0])
    /\ slept mid = (if on =? 0 then 0 else 12)
    /\ (on = 0 -> r = 0 /\ b' = b /\ mid = [EvGpiodDirectionOutput 1]).
Proof.
  destruct (Z.eqb_spec on 0) as [-> | Hon].
  - exists 0, b, [EvGpiodDirectionOutput 1].
    split; [apply s_power_off_run|]. repeat split.
  - destruct (s_power_on_uniform on b Hon) as (r & b' & post & E & Hcases).
    destruct (s_power_post_measures b r post Hcases) as (Hm & Hg & Hs).
    exists r, b',
      ([ EvGpiodDirectionOutput 1; EvMsleep 2;
         EvGpiodSetValueCansleep 0; EvMsleep 10 ] ++ post).
    split; [rewrite E; unfold reset_sequence; cbn [app]; reflexivity|].
    cbn [app filter is_mutex_event is_gpio_event slept].
    rewrite Hm, Hg, Hs.
    split; [reflexivity|]. split; [reflexivity|]. split; [reflexivity|].
    intros H0. contradiction.
Qed.

Lemma s_power_zero_inv (on : Z) d b tr w' :
  on <> 0 ->
  ar0144_s_power send recv on (mk_world d b tr) = Done 0 w' ->
  exists buf b2,
    bus_reads send recv b AR0144_ID_REG = Some (buf, b2)
    /\ be16 buf = AR0144_ID_VAL
    /\ bus_accepts send b2 (frames_of ar0144at_rev4_recommended_setting) = true
    /\ w' = mk_world d
              (bus_after send b2 (frames_of ar0144at_rev4_recommended_setting))
              (tr ++ reset_sequence
                  ++ [ EvI2cMasterSend (addr_frame AR0144_ID_REG);
                       EvI2cMasterRecv 2 ]
                  ++ writes_of ar0144at_rev4_recommended_setting
                  ++ [EvMutexUnlock]).
Proof.
  intros Hon Hrun.
  destruct (s_power_on_uniform on b Hon) as (r & b' & post & E & Hcases).
  pose proof (E d tr) as Ed. rewrite Hrun in Ed. injection Ed as Hr _.
  subst r.
  destruct Hcases as [(_ & Hneg & _)
                     | [(buf & b2 & _ & _ & Hr & _)
                       | (buf & b2 & e & Hread & Hid & _ & _ & Hiff & _)]].
  - lia.
  - unfold ENODEV in Hr. lia.
  - exists buf, b2. assert (Hacc := proj1 Hiff eq_refl).
    repeat split; auto.
    rewrite (s_power_ok_run Bus send recv on d b tr buf b2 Hon Hread Hid Hacc)
      in Hrun.
    injection Hrun as <-. reflexivity.
Qed.

(** X7. A power-up that returns 0 has read the identity register, found
    [AR0144_ID_VAL] there and had every one of the 25 recommended
    settings accepted; its calls are then the reset sequence, the two
    transfers of the read, the 25 writes in table order and the unlock. *)
Theorem X7_power_up_zero_means_verified (on : Z) d b tr w' :
  on <> 0 ->
  ar0144_s_power send recv on (mk_world d b tr) = Done 0 w' ->
  exists buf b2,
    bus_reads send recv b AR0144_ID_REG = Some (buf, b2)
    /\ be16 buf = AR0144_ID_VAL
    /\ bus_accepts send b2 (frames_of ar0144at_rev4_recommended_setting) = true
    /\ w' = mk_world d
              (bus_after send b2 (frames_of ar0144at_rev4_recommended_setting))
              (tr ++ reset_sequence
                  ++ [ EvI2cMasterSend (addr_frame AR0144_ID_REG);
                       EvI2cMasterRecv 2 ]
                  ++ writes_of ar0144at_rev4_recommended_setting
                  ++ [EvMutexUnlock]).
Proof. apply s_power_zero_inv. Qed.

(** X8. When the identity read fails on the bus, a power-up returns the
    negative value of the transfer that failed: that of the address send
    when it is refused, in which case no receive is attempted, and that
    of the receive otherwise. It writes no register and logs no
    wrong-chip line, which a mismatch always does. *)
Theorem X8_power_up_read_failure (on : Z) d b tr :
  on <> 0 ->
  bus_reads send recv b AR0144_ID_REG = None ->
  exists r b' evs,
    ar0144_s_power send recv on (mk_world d b tr)
    = Done r (mk_world d b' (tr ++ evs))
    /\ r < 0
    /\ r = (if fst (send b (addr_frame AR0144_ID_REG)) <? 0
            then fst (send b (addr_frame AR0144_ID_REG))
            else fst (fst (recv (snd (send b (addr_frame AR0144_ID_REG)))
                             (addr_frame AR0144_ID_REG) 2)))
    /\ (fst (send b (addr_frame AR0144_ID_REG)) < 0 ->
        filter is_bus_event evs = [EvI2cMasterSend (addr_frame AR0144_ID_REG)])
    /\ register_writes evs = []
    /\ (forall v x, ~ In (EvDevErr (wrong_chip_id v x)) evs).
Proof.
  intros Hon Hread. apply Z.eqb_neq in Hon as Hon'.
  destruct (bus_reads_none b AR0144_ID_REG Hread) as [H1 | [H1 H2]].
  - do 3 eexists. split.
    + erewrite s_power_on_with_read
        with (rv := (fst (send b (addr_frame AR0144_ID_REG)), 0))
        by (try assumption; intros; now apply read_reg_send_fail).
      cbv beta iota.
      replace (fst (send b (addr_frame AR0144_ID_REG)) <? 0) with true
        by (symmetry; now apply Z.ltb_lt).
      unfold bind at 1. unfold pure at 1.
      erewrite bind_Done by apply emit_run. unfold pure.
      rewrite <- app_assoc. reflexivity.
    + split; [exact H1|].
      split; [now rewrite (proj2 (Z.ltb_lt _ _) H1)|].
      split; [intros _; reflexivity|]. split; [reflexivity|].
      intros v x Hin. cbn in Hin.
      repeat (destruct Hin as [Hin|Hin]; [discriminate|]). exact Hin.
  - do 3 eexists. split.
    + erewrite s_power_on_with_read
        with (rv := (fst (fst (recv (snd (send b (addr_frame AR0144_ID_REG)))
                                 (addr_frame AR0144_ID_REG) 2)), 0))
        by (try assumption; intros; now apply read_reg_recv_fail).
      cbv beta iota.
      replace (fst (fst (recv (snd (send b (addr_frame AR0144_ID_REG)))
                           (addr_frame AR0144_ID_REG) 2)) <? 0) with true
        by (symmetry; now apply Z.ltb_lt).
      unfold bind at 1. unfold pure at 1.
      erewrite bind_Done by apply emit_run. unfold pure.
      rewrite <- app_assoc. reflexivity.
    + split; [exact H2|].
      split; [now rewrite (proj2 (Z.ltb_ge _ _) H1)|].
      split; [intros H; lia|]. split; [reflexivity|].
      intros v x Hin. cbn in Hin.
      repeat (destruct Hin as [Hin|Hin]; [discriminate|]). exact Hin.
Qed.

(** X9. [ar0144_read_reg] returns 0 or a negative value, and 0 exactly
    when the address send and the receive both went through. On a
    negative return [*val] is as it was; on 0 it holds a 16-bit value,
    whatever the adapter left in the buffer. When the address send is
    refused no receive is attempted. *)
Theorem X9_read_reg_outcomes (r v0 : Z) d b tr :
  exists ret val' b' evs,
    ar0144_read_reg send recv r v0 (mk_world d b tr)
    = Done (ret, val') (mk_world d b' (tr ++ evs))
    /\ ret <= 0
    /\ (ret = 0 <-> bus_reads send recv b r <> None)
    /\ (ret < 0 -> val' = v0)
    /\ (ret = 0 -> is_u16 val')
    /\ (fst (send b (addr_frame r)) < 0 ->
        ret = fst (send b (addr_frame r))
        /\ filter is_bus_event evs = [EvI2cMasterSend (addr_frame r)]).
Proof.
  destruct (bus_reads send recv b r) as [[buf b2]|] eqn:Hread.
  - exists 0, (be16 buf), b2,
      [EvI2cMasterSend (addr_frame r); EvI2cMasterRecv 2].
    split; [now apply read_reg_ok|]. split; [lia|].
    split; [split; [discriminate | reflexivity]|].
    split; [lia|]. split; [intros _; apply be16_range|].
    intros H. destruct (bus_reads_some b r buf b2 Hread) as [H1 _]. lia.
  - destruct (bus_reads_none b r Hread) as [H1 | [H1 H2]].
    + do 4 eexists. split; [now apply read_reg_send_fail|].
      split; [lia|]. split; [split; [lia | congruence]|].
      split; [reflexivity|]. split; [lia|].
      intros _. split; reflexivity.
    + do 4 eexists. split; [now apply read_reg_recv_fail|].
      split; [lia|]. split; [split; [lia | congruence]|].
      split; [reflexivity|]. split; [lia|]. intros H. lia.
Qed.

(** X10. The byte order of the write and of the read agree. For 16-bit
    [r] and [v] the first two bytes of the frame [ar0144_write_reg]
    builds recompose to [r] and the last two to [v]; and a read that
    finds in its buffer the two value bytes of that frame stores [v]. *)
Theorem X10_write_frame_read_back (r v r0 v0 : Z) d b tr b2 :
  is_u16 r -> is_u16 v ->
  bus_reads send recv b r0 = Some (skipn 2 (write_frame r v), b2) ->
  be16 (firstn 2 (write_frame r v)) = r
  /\ be16 (skipn 2 (write_frame r v)) = v
  /\ ar0144_read_reg send recv r0 v0 (mk_world d b tr)
     = Done (0, v)
         (mk_world d b2
            (tr ++ [EvI2cMasterSend (addr_frame r0); EvI2cMasterRecv 2])).
Proof.
  intros Hr Hv Hread.
  assert (H1 : be16 (firstn 2 (write_frame r v)) = r).
  { rewrite write_frame_bytes by assumption. cbn [firstn].
    now apply be16_of_bytes. }
  assert (H2 : be16 (skipn 2 (write_frame r v)) = v).
  { rewrite write_frame_bytes by assumption. cbn [skipn].
    now apply be16_of_bytes. }
  split; [exact H1|]. split; [exact H2|].
  rewrite read_reg_ok with (buf := skipn 2 (write_frame r v)) (b2 := b2)
    by exact Hread.
  now rewrite H2.
Qed.

(** ** Format, selection and enumeration *)

Lemma get_format_null cfg (req : v4l2_subdev_format) d (b : Bus) tr :
  sf_which req <> V4L2_SUBDEV_FORMAT_TRY ->
  sf_which req <> V4L2_SUBDEV_FORMAT_ACTIVE ->
  ar0144_get_format cfg req (mk_world d b tr)
  = Oops (mk_world d b (tr ++ [EvMutexLock])).
Proof.
  intros H1 H2. unfold ar0144_get_format.
  rewrite (get_pad_format_other cfg _ _ H1 H2). reflexivity.
Qed.

(** X11. [ar0144_set_format] pays no attention to what is asked for:
    two calls with any two requests and pad configurations leave the
    same device format, a second call changes nothing more, the crop
    rectangle and the [streaming] member are not touched, and the
    format a following [ar0144_get_format] returns is the one
    [ar0144_set_format] returned. *)
Theorem X11_set_format_idempotent_and_read_back
    cfg1 cfg2 cfg3 (req1 req2 q : v4l2_subdev_format) d (b : Bus) tr :
  valid_which (sf_which req1) ->
  valid_which (sf_which req2) ->
  valid_which (sf_which q) ->
  dev (final (ar0144_set_format cfg1 req1 (mk_world d b tr)))
  = dev (final (ar0144_set_format cfg2 req2 (mk_world d b tr)))
  /\ dev (final (ar0144_set_format cfg2 req2
                   (final (ar0144_set_format cfg1 req1 (mk_world d b tr)))))
     = dev (final (ar0144_set_format cfg1 req1 (mk_world d b tr)))
  /\ crop (dev (final (ar0144_set_format cfg1 req1 (mk_world d b tr))))
     = crop d
  /\ streaming (dev (final (ar0144_set_format cfg1 req1 (mk_world d b tr))))
     = streaming d
  /\ option_map (fun x => sf_format (snd x))
       (retval (ar0144_get_format cfg3 q
                  (final (ar0144_set_format cfg1 req1 (mk_world d b tr)))))
     = option_map (fun x => sf_format (snd x))
         (retval (ar0144_set_format cfg1 req1 (mk_world d b tr)))
  /\ option_map (fun x => sf_format (snd x))
       (retval (ar0144_set_format cfg1 req1 (mk_world d b tr)))
     = Some (fixed_format (fmt d)).
Proof.
  intros H1 H2 H3.
  rewrite !(set_format_run Bus cfg1 req1) by assumption.
  rewrite !(set_format_run Bus cfg2 req2) by assumption.
  cbn [final dev retval option_map snd sf_format crop streaming].
  rewrite (set_format_run Bus cfg2 req2) by assumption.
  rewrite (get_format_run Bus cfg3 q) by assumption.
  cbn [final dev retval option_map snd sf_format fmt].
  repeat split.
Qed.

(** X12. With a [which] that is neither TRY nor ACTIVE the lookup helper
    gives a null pointer and [ar0144_set_format] and
    [ar0144_get_format] dereference it: neither returns, the mutex has
    been taken and is not released, and [struct ar0144] is as it was. *)
Theorem X12_format_calls_with_bad_which
    cfg (req : v4l2_subdev_format) d (b : Bus) tr :
  sf_which req <> V4L2_SUBDEV_FORMAT_TRY ->
  sf_which req <> V4L2_SUBDEV_FORMAT_ACTIVE ->
  ar0144_set_format cfg req (mk_world d b tr)
  = Oops (mk_world d b (tr ++ [EvMutexLock]))
  /\ ar0144_get_format cfg req (mk_world d b tr)
     = Oops (mk_world d b (tr ++ [EvMutexLock])).
Proof.
  intros H1 H2. split; [now apply set_format_null | now apply get_format_null].
Qed.

(** X13. [ar0144_get_selection] never takes the lock and never changes
    anything. A target other than CROP gives [-EINVAL] and the caller's
    structure back untouched, before [which] is looked at; the CROP
    target with TRY or ACTIVE gives 0 and the stored crop rectangle;
    the CROP target with any other [which] dereferences null. *)
Theorem X13_get_selection_outcomes
    cfg (sel : v4l2_subdev_selection) (w : world Bus) :
  final (ar0144_get_selection cfg sel w) = w
  /\ (sel_target sel <> V4L2_SEL_TGT_CROP ->
      retval (ar0144_get_selection cfg sel w) = Some (- EINVAL, sel))
  /\ (sel_target sel = V4L2_SEL_TGT_CROP -> valid_which (sel_which sel) ->
      retval (ar0144_get_selection cfg sel w)
      = Some (0, mk_subdev_selection (sel_which sel) (sel_pad sel)
                   (sel_target sel) (sel_flags sel) (crop (dev w))))
  /\ (sel_target sel = V4L2_SEL_TGT_CROP ->
      sel_which sel <> V4L2_SUBDEV_FORMAT_TRY ->
      sel_which sel <> V4L2_SUBDEV_FORMAT_ACTIVE ->
      retval (ar0144_get_selection cfg sel w) = None).
Proof.
  unfold ar0144_get_selection.
  destruct (Z.eqb_spec (sel_target sel) V4L2_SEL_TGT_CROP) as [Ht|Ht];
    cbn [negb].
  - split; [|split; [|split]].
    + unfold __ar0144_get_pad_crop.
      destruct (sel_which sel =? V4L2_SUBDEV_FORMAT_TRY);
        [destruct w; reflexivity|].
      destruct (sel_which sel =? V4L2_SUBDEV_FORMAT_ACTIVE);
        destruct w; reflexivity.
    + intros H. contradiction.
    + intros _ H. rewrite (get_pad_crop_valid cfg _ _ H).
      destruct w. reflexivity.
    + intros _ H1 H2. rewrite (get_pad_crop_other cfg _ _ H1 H2). reflexivity.
  - split; [reflexivity|]. split; [reflexivity|].
    split; intros H; contradiction.
Qed.

(** X14. What the enumeration callbacks report is what
    [ar0144_set_format] stores: the code enumerated at index 0 is the
    code of the stored format, [ar0144_enum_frame_size] accepts that
    code at index 0, and the one size it reports, minimum equal to
    maximum, is the stored width and height. *)
Theorem X14_enumeration_agrees_with_set_format
    cfg (code : v4l2_subdev_mbus_code_enum) (fse : v4l2_subdev_frame_size_enum)
    (req : v4l2_subdev_format) d (b : Bus) tr :
  mce_index code = 0 ->
  fse_index fse = 0 ->
  fse_code fse = mce_code (snd (ar0144_enum_mbus_code cfg code)) ->
  valid_which (sf_which req) ->
  fst (ar0144_enum_mbus_code cfg code) = 0
  /\ fst (ar0144_enum_frame_size cfg fse) = 0
  /\ exists f,
       retval (ar0144_set_format cfg req (mk_world d b tr)) = Some (0, f)
       /\ fmt_code (sf_format f)
          = mce_code (snd (ar0144_enum_mbus_code cfg code))
       /\ fse_min_width (snd (ar0144_enum_frame_size cfg fse))
          = fmt_width (sf_format f)
       /\ fse_max_width (snd (ar0144_enum_frame_size cfg fse))
          = fmt_width (sf_format f)
       /\ fse_min_height (snd (ar0144_enum_frame_size cfg fse))
          = fmt_height (sf_format f)
       /\ fse_max_height (snd (ar0144_enum_frame_size cfg fse))
          = fmt_height (sf_format f).
Proof.
  intros Hi Hj Hc Hw.
  unfold ar0144_enum_mbus_code in *. rewrite Hi in *.
  change (0 >? 0) with false in *. cbv iota in *. cbn [snd mce_code fst] in *.
  unfold ar0144_enum_frame_size. rewrite Hc, Hj, Z.eqb_refl.
  change (0 >=? 1) with false. cbn [negb fst snd].
  split; [reflexivity|]. split; [reflexivity|].
  rewrite set_format_run by exact Hw. eexists. split; [reflexivity|].
  repeat split.
Qed.

(** X15. Exactly one code and one frame size are enumerated. For an
    index that is not negative, [ar0144_enum_mbus_code] returns 0 when
    the index is 0 and [-EINVAL] otherwise, and
    [ar0144_enum_frame_size] returns 0 when the code is SRGGB12_1X12 and
    the index is 0 and [-EINVAL] otherwise; a rejected call leaves the
    caller's structure alone. *)
Theorem X15_enumeration_has_one_entry
    cfg (code : v4l2_subdev_mbus_code_enum) (fse : v4l2_subdev_frame_size_enum) :
  0 <= mce_index code ->
  0 <= fse_index fse ->
  (fst (ar0144_enum_mbus_code cfg code) = 0 <-> mce_index code = 0)
  /\ (mce_index code <> 0 ->
      ar0144_enum_mbus_code cfg code = (- EINVAL, code))
  /\ (fst (ar0144_enum_frame_size cfg fse) = 0 <->
      fse_code fse = MEDIA_BUS_FMT_SRGGB12_1X12 /\ fse_index fse = 0)
  /\ (fse_code fse <> MEDIA_BUS_FMT_SRGGB12_1X12 \/ fse_index fse <> 0 ->
      ar0144_enum_frame_size cfg fse = (- EINVAL, fse)).
Proof.
  intros Hi Hj. unfold ar0144_enum_mbus_code, ar0144_enum_frame_size, EINVAL.
  destruct (Z.gtb_spec (mce_index code) 0) as [H|H];
    destruct (Z.eqb_spec (fse_code fse) MEDIA_BUS_FMT_SRGGB12_1X12) as [Hc|Hc];
    destruct (Z.geb_spec (fse_index fse) 1) as [Hg|Hg];
    cbn [negb fst]; repeat split; intros; try reflexivity; try lia;
    try tauto; try (exfalso; lia).
  all: try (destruct H0; [contradiction | lia]).
  all: try (destruct H0; lia).
Qed.

(** ** Probe on any adapter and environment *)

Lemma probe_prelim_fail env d0 b tr :
  preliminaries_ok env = false ->
  exists r d' evs,
    ar0144_probe send recv env (mk_world d0 b tr)
    = Done r (mk_world d' b (tr ++ evs))
    /\ r < 0
    /\ (evs = [] \/ exists m, evs = [EvDevErr m])
    /\ (kzalloc_ok env = true -> d' = ar0144_kzalloc).
Proof.
  unfold preliminaries_ok, ar0144_probe. intros H.
  assert (fin : forall r d' evs (w : result Bus Z),
             w = Done r (mk_world d' b (tr ++ evs)) ->
             r < 0 ->
             (evs = [] \/ exists m, evs = [EvDevErr m]) ->
             (kzalloc_ok env = true -> d' = ar0144_kzalloc) ->
             exists r d' evs,
               w = Done r (mk_world d' b (tr ++ evs))
               /\ r < 0
               /\ (evs = [] \/ exists m, evs = [EvDevErr m])
               /\ (kzalloc_ok env = true -> d' = ar0144_kzalloc)).
  { intros r d' evs w E Hr He Hk. exists r, d', evs. auto. }
  destruct (kzalloc_ok env) eqn:Hk; cbn [negb andb] in *.
  2:{ apply (fin (- ENOMEM) d0 []); auto; try discriminate.
      - unfold pure. now rewrite app_nil_r.
      - unfold ENOMEM. lia. }
  erewrite bind_Done by apply put_dev_run.
  destruct (endpoint_found env); cbn [negb andb] in *.
  2:{ erewrite bind_Done by apply emit_run.
      eapply fin; [reflexivity | unfold EINVAL; lia | eauto | auto]. }
  destruct (Z.ltb_spec (endpoint_parse_ret env) 0) as [Hn|Hn].
  { erewrite bind_Done by apply emit_run.
    eapply fin; [reflexivity | exact Hn | eauto | auto]. }
  replace (0 <=? endpoint_parse_ret env) with true in H
    by (symmetry; now apply Z.leb_le).
  cbn [andb] in H.
  destruct (is_csi2 (ep_bus_type env)); cbn [negb andb] in *.
  2:{ erewrite bind_Done by apply emit_run.
      eapply fin; [reflexivity | unfold EINVAL; lia | eauto | auto]. }
  destruct (Z.ltb_spec (rst_gpio_err env) 0) as [Hg|Hg].
  { destruct (negb (rst_gpio_err env =? - EPROBE_DEFER)).
    - erewrite bind_Done by apply emit_run.
      eapply fin; [reflexivity | exact Hg | eauto | auto].
    - apply (fin (rst_gpio_err env) ar0144_kzalloc []); auto.
      unfold bind, pure. now rewrite app_nil_r. }
  replace (0 <=? rst_gpio_err env) with true in H
    by (symmetry; now apply Z.leb_le).
  cbn [andb] in H. apply Z.leb_gt in H.
  replace (pads_init_ret env <? 0) with true by (symmetry; now apply Z.ltb_lt).
  erewrite bind_Done by apply emit_run.
  eapply fin; [reflexivity | exact H | eauto | auto].
Qed.

Lemma probe_prelim_ok_run env d0 b tr :
  preliminaries_ok env = true ->
  ar0144_probe send recv env (mk_world d0 b tr)
  = bind Bus (ar0144_s_power send recv 1)
      (fun ret =>
         if ret <? 0 then
           bind Bus (emit Bus (EvDevErr could_not_power_up)) (fun _ =>
             bind Bus (emit Bus EvMediaEntityCleanup) (fun _ => pure Bus ret))
         else
           bind Bus (emit Bus EvDevInfoDetected) (fun _ =>
             if async_register_ret env <? 0 then
               bind Bus (emit Bus (EvDevErr could_not_register_v4l2_device))
                 (fun _ =>
                    bind Bus (emit Bus EvMediaEntityCleanup)
                      (fun _ => pure Bus (async_register_ret env)))
             else
               bind Bus (ar0144_entity_init_cfg None) (fun _ => pure Bus 0)))
      (mk_world ar0144_kzalloc b tr).
Proof.
  unfold preliminaries_ok. intros H.
  repeat (apply andb_true_iff in H; destruct H as [H ?]).
  unfold ar0144_probe. rewrite H. cbn [negb].
  erewrite bind_Done by apply put_dev_run.
  match goal with Hx : endpoint_found env = true |- _ => rewrite Hx end.
  match goal with Hx : is_csi2 _ = true |- _ => rewrite Hx end.
  cbn [negb].
  repeat match goal with
         | Hx : (0 <=? ?x) = true |- _ =>
             apply Z.leb_le in Hx;
             replace (x <? 0) with false by (symmetry; now apply Z.ltb_ge)
         end.
  reflexivity.
Qed.

Lemma entity_init_cfg_run d (b : Bus) tr :
  ar0144_entity_init_cfg None (mk_world d b tr)
  = Done 0
      (mk_world (mk_ar0144 (fixed_format (fmt d)) (crop d) (streaming d)) b
         (tr ++ [EvMutexLock; EvMutexUnlock])).
Proof.
  unfold ar0144_entity_init_cfg. cbn [sf_pad sf_format].
  erewrite bind_Done by (apply set_format_run; right; reflexivity).
  reflexivity.
Qed.

(** X17. When one of the kernel calls that precede the power-up fails,
    probe returns a negative value without any I2C transfer, leaving the
    adapter as it was, without sleeping, and with at most one error
    line. A deferred reset GPIO gives [-EPROBE_DEFER] and no error
    line. *)
Theorem X17_probe_early_failure_makes_no_transfer env d0 b tr :
  preliminaries_ok env = false ->
  exists r d' evs,
    ar0144_probe send recv env (mk_world d0 b tr)
    = Done r (mk_world d' b (tr ++ evs))
    /\ r < 0
    /\ filter is_bus_event evs = []
    /\ slept evs = 0
    /\ (length (error_lines evs) <= 1)%nat
    /\ (kzalloc_ok env = true -> endpoint_found env = true ->
        0 <= endpoint_parse_ret env -> ep_bus_type env = V4L2_MBUS_CSI2 ->
        rst_gpio_err env = - EPROBE_DEFER ->
        r = - EPROBE_DEFER /\ error_lines evs = []).
Proof.
  intros H.
  destruct (probe_prelim_fail env d0 b tr H) as (r & d' & evs & E & Hr & Hev & _).
  exists r, d', evs.
  split; [exact E|]. split; [exact Hr|].
  split; [destruct Hev as [-> | [m ->]]; reflexivity|].
  split; [destruct Hev as [-> | [m ->]]; reflexivity|].
  split; [destruct Hev as [-> | [m ->]]; cbn; lia|].
  intros Hk He Hp Hc Hg. revert E. unfold ar0144_probe.
  rewrite Hk, He, Hc, Hg. cbn [negb is_csi2].
  erewrite bind_Done by apply put_dev_run.
  replace (endpoint_parse_ret env <? 0) with false
    by (symmetry; now apply Z.ltb_ge).
  change (- EPROBE_DEFER <? 0) with true. cbv iota.
  rewrite Z.eqb_refl. cbn [negb]. unfold bind, pure.
  intros E. injection E as Er _ Et. split; [now symmetry|].
  rewrite <- (app_nil_r tr) in Et at 1. apply app_inv_head in Et.
  now rewrite <- Et.
Qed.

Lemma probe_after_power env d0 b tr rp b' ep :
  preliminaries_ok env = true ->
  ar0144_s_power send recv 1 (mk_world ar0144_kzalloc b tr)
  = Done rp (mk_world ar0144_kzalloc b' (tr ++ ep)) ->
  ar0144_probe send recv env (mk_world d0 b tr)
  = if rp <? 0 then
      Done rp
        (mk_world ar0144_kzalloc b'
           (tr ++ ep ++ [EvDevErr could_not_power_up; EvMediaEntityCleanup]))
    else if async_register_ret env <? 0 then
      Done (async_register_ret env)
        (mk_world ar0144_kzalloc b'
           (tr ++ ep ++ [ EvDevInfoDetected;
                          EvDevErr could_not_register_v4l2_device;
                          EvMediaEntityCleanup ]))
    else
      Done 0
        (mk_world (mk_ar0144 (fixed_format framefmt_zero) rect_zero false) b'
           (tr ++ ep ++ [EvDevInfoDetected; EvMutexLock; EvMutexUnlock])).
Proof.
  intros Hpre E. rewrite probe_prelim_ok_run by exact Hpre.
  erewrite bind_Done by exact E.
  destruct (rp <? 0).
  - do 2 erewrite bind_Done by apply emit_run. unfold pure.
    rewrite <- !app_assoc. reflexivity.
  - erewrite bind_Done by apply emit_run.
    destruct (async_register_ret env <? 0).
    + do 2 erewrite bind_Done by apply emit_run. unfold pure.
      rewrite <- !app_assoc. reflexivity.
    + erewrite bind_Done by apply entity_init_cfg_run. unfold pure.
      rewrite <- !app_assoc. reflexivity.
Qed.

(** X18. Once the preliminary kernel calls have succeeded, probe runs
    one power-up and then does one of three things. A failed power-up is
    returned with its own value after the error line and the entity
    cleanup, and the format is left as allocated. A failed registration
    is returned the same way, without driving the reset line again.
    Otherwise probe returns 0 and the device format is the fixed one. In
    all three the crop rectangle stays zero. *)
Theorem X18_probe_after_preliminaries env d0 b tr :
  preliminaries_ok env = true ->
  exists rp b' ep,
    ar0144_s_power send recv 1 (mk_world ar0144_kzalloc b tr)
    = Done rp (mk_world ar0144_kzalloc b' (tr ++ ep))
    /\ rp <= 0
    /\ (rp < 0 ->
        ar0144_probe send recv env (mk_world d0 b tr)
        = Done rp
            (mk_world ar0144_kzalloc b'
               (tr ++ ep ++ [ EvDevErr could_not_power_up;
                              EvMediaEntityCleanup ])))
    /\ (rp = 0 -> async_register_ret env < 0 ->
        ar0144_probe send recv env (mk_world d0 b tr)
        = Done (async_register_ret env)
            (mk_world ar0144_kzalloc b'
               (tr ++ ep ++ [ EvDevInfoDetected;
                              EvDevErr could_not_register_v4l2_device;
                              EvMediaEntityCleanup ])))
    /\ (rp = 0 -> 0 <= async_register_ret env ->
        ar0144_probe send recv env (mk_world d0 b tr)
        = Done 0
            (mk_world
               (mk_ar0144 (fixed_format framefmt_zero) rect_zero false) b'
               (tr ++ ep ++ [EvDevInfoDetected; EvMutexLock; EvMutexUnlock]))).
Proof.
  intros Hpre.
  destruct (io_s_power Bus send recv 1 b tr) as (rp & b' & ep & Hle & E).
  exists rp, b', ep. split; [apply E|]. split; [exact Hle|].
  pose proof (probe_after_power env d0 b tr rp b' ep Hpre (E _)) as P.
  split; [|split].
  - intros Hn. rewrite P.
    replace (rp <? 0) with true by (symmetry; now apply Z.ltb_lt).
    reflexivity.
  - intros -> Ha. rewrite P. change (0 <? 0) with false. cbv iota.
    replace (async_register_ret env <? 0) with true
      by (symmetry; now apply Z.ltb_lt).
    reflexivity.
  - intros -> Ha. rewrite P. change (0 <? 0) with false. cbv iota.
    replace (async_register_ret env <? 0) with false
      by (symmetry; now apply Z.ltb_ge).
    reflexivity.
Qed.

(** X19. A probe that returns 0 has had every preliminary kernel call
    and the registration succeed, has read [AR0144_ID_VAL] from the
    identity register and has had all recommended settings accepted. It
    leaves the fixed format in the device, which is what
    [ar0144_get_format] then returns. *)
Theorem X19_probe_zero_means_verified env d0 b tr w' :
  ar0144_probe send recv env (mk_world d0 b tr) = Done 0 w' ->
  preliminaries_ok env = true
  /\ 0 <= async_register_ret env
  /\ (exists buf b2,
         bus_reads send recv b AR0144_ID_REG = Some (buf, b2)
         /\ be16 buf = AR0144_ID_VAL
         /\ bus_accepts send b2
              (frames_of ar0144at_rev4_recommended_setting) = true)
  /\ dev w' = mk_ar0144 (fixed_format framefmt_zero) rect_zero false
  /\ (forall cfg q, valid_which (sf_which q) ->
        retval (ar0144_get_format cfg q w')
        = Some (0, mk_subdev_format (sf_which q) (sf_pad q)
                     (fixed_format framefmt_zero))).
Proof.
  intros Hrun.
  destruct (preliminaries_ok env) eqn:Hpre.
  2:{ destruct (probe_prelim_fail env d0 b tr Hpre)
        as (r & d' & evs & E & Hr & _).
      rewrite Hrun in E. injection E as Hr0 _. lia. }
  destruct (io_s_power Bus send recv 1 b tr) as (rp & b' & ep & Hle & E).
  rewrite (probe_after_power env d0 b tr rp b' ep Hpre (E _)) in Hrun.
  destruct (Z.ltb_spec rp 0) as [Hn|Hn].
  { injection Hrun as Hr0 _. lia. }
  assert (rp = 0) by lia. subst rp.
  destruct (Z.ltb_spec (async_register_ret env) 0) as [Ha|Ha].
  { injection Hrun as H0 _. lia. }
  injection Hrun as <-.
  destruct (s_power_zero_inv 1 ar0144_kzalloc b tr _ ltac:(discriminate) (E _))
    as (buf & b2 & Hread & Hid & Hacc & _).
  split; [reflexivity|]. split; [exact Ha|].
  split; [exists buf, b2; auto|]. split; [reflexivity|].
  intros cfg q Hq. rewrite get_format_run by exact Hq. reflexivity.
Qed.

End MoreProperties.

(** ** Concrete runs of the further properties *)

(** X3 on an adapter that refuses its eighth send: the stream-on and the
    flat table both stop there. *)
Lemma X3_stream_on_refused_at_eighth_send :
  exists r b' es ef k,
    ar0144_s_stream (nack_send 7) 1 (mk_world ar0144_kzalloc 0%nat [])
    = Done r (mk_world ar0144_kzalloc b' ([] ++ es))
    /\ ar0144_set_register_array (nack_send 7) (concat start_tables)
         (mk_world ar0144_kzalloc 0%nat [])
       = Done r (mk_world ar0144_kzalloc b' ([] ++ ef))
    /\ register_writes es = register_writes ef
    /\ (r = 0 <->
        bus_accepts (nack_send 7) 0%nat (frames_of (concat start_tables))
        = true)
    /\ register_writes es = firstn k (frames_of (concat start_tables))
    /\ (r = 0 -> k = 32%nat).
Proof.
  apply (X3_stream_on_is_one_flat_table nat (nack_send 7) 1
           ar0144_kzalloc 0%nat []).
  discriminate.
Defined.

(** X7 on the acknowledging adapter. *)
Lemma X7_power_up_on_ack_adapter :
  exists buf b2,
    bus_reads ack_send (id_recv AR0144_ID_VAL) tt AR0144_ID_REG
    = Some (buf, b2)
    /\ be16 buf = AR0144_ID_VAL
    /\ bus_accepts ack_send b2 (frames_of ar0144at_rev4_recommended_setting)
       = true
    /\ final (ar0144_s_power ack_send (id_recv AR0144_ID_VAL) 1
                (mk_world ar0144_kzalloc tt []))
       = mk_world ar0144_kzalloc
           (bus_after ack_send b2
              (frames_of ar0144at_rev4_recommended_setting))
           ([] ++ reset_sequence
               ++ [ EvI2cMasterSend (addr_frame AR0144_ID_REG);
                    EvI2cMasterRecv 2 ]
               ++ writes_of ar0144at_rev4_recommended_setting
               ++ [EvMutexUnlock]).
Proof.
  apply (X7_power_up_zero_means_verified unit ack_send
           (id_recv AR0144_ID_VAL) 1 ar0144_kzalloc tt []
           (final (ar0144_s_power ack_send (id_recv AR0144_ID_VAL) 1
                     (mk_world ar0144_kzalloc tt [])))).
  - discriminate.
  - vm_compute. reflexivity.
Defined.

(** X8 on an adapter that refuses the address send of the identity
    read. *)
Lemma X8_power_up_with_refused_address :
  exists r b' evs,
    ar0144_s_power (nack_send 0) (counted_recv AR0144_ID_VAL) 1
      (mk_world ar0144_kzalloc 0%nat [])
    = Done r (mk_world ar0144_kzalloc b' ([] ++ evs))
    /\ r < 0
    /\ r = (if fst (nack_send 0 0%nat (addr_frame AR0144_ID_REG)) <? 0
            then fst (nack_send 0 0%nat (addr_frame AR0144_ID_REG))
            else fst (fst (counted_recv AR0144_ID_VAL
                             (snd (nack_send 0 0%nat
                                     (addr_frame AR0144_ID_REG)))
                             (addr_frame AR0144_ID_REG) 2)))
    /\ (fst (nack_send 0 0%nat (addr_frame AR0144_ID_REG)) < 0 ->
        filter is_bus_event evs = [EvI2cMasterSend (addr_frame AR0144_ID_REG)])
    /\ register_writes evs = []
    /\ (forall v x, ~ In (EvDevErr (wrong_chip_id v x)) evs).
Proof.
  apply (X8_power_up_read_failure nat (nack_send 0)
           (counted_recv AR0144_ID_VAL) 1 ar0144_kzalloc 0%nat []).
  - discriminate.
  - reflexivity.
Defined.

(** X10 on the stream-on command: a sensor that answers a read with the
    value bytes written gives 0x005C back. *)
Lemma X10_stream_on_command_read_back :
  be16 (firstn 2 (write_frame 0x301A 0x005C)) = 0x301A
  /\ be16 (skipn 2 (write_frame 0x301A 0x005C)) = 0x005C
  /\ ar0144_read_reg ack_send (id_recv 0x005C) 0x301A 0
       (mk_world ar0144_kzalloc tt [])
     = Done (0, 0x005C)
         (mk_world ar0144_kzalloc tt
            ([] ++ [EvI2cMasterSend (addr_frame 0x301A); EvI2cMasterRecv 2])).
Proof.
  apply (X10_write_frame_read_back unit ack_send (id_recv 0x005C)
           0x301A 0x005C 0x301A 0 ar0144_kzalloc tt [] tt).
  - unfold is_u16. lia.
  - unfold is_u16. lia.
  - reflexivity.
Defined.

(** X11 on two different requests. *)
Lemma X11_two_requests_one_format :
  dev (final (ar0144_set_format None
                (mk_subdev_format V4L2_SUBDEV_FORMAT_TRY 0
                   (mk_framefmt 640 480 0x2008 0 0 0 0 0))
                (mk_world ar0144_kzalloc tt [])))
  = dev (final (ar0144_set_format None
                  (mk_subdev_format V4L2_SUBDEV_FORMAT_ACTIVE 0
                     (mk_framefmt 1920 1080 0x3012 1 8 0 0 0))
                  (mk_world ar0144_kzalloc tt []))).
Proof.
  apply (X11_set_format_idempotent_and_read_back unit None None None
           (mk_subdev_format V4L2_SUBDEV_FORMAT_TRY 0
              (mk_framefmt 640 480 0x2008 0 0 0 0 0))
           (mk_subdev_format V4L2_SUBDEV_FORMAT_ACTIVE 0
              (mk_framefmt 1920 1080 0x3012 1 8 0 0 0))
           (mk_subdev_format V4L2_SUBDEV_FORMAT_ACTIVE 0 framefmt_zero)
           ar0144_kzalloc tt []).
  - left. reflexivity.
  - right. reflexivity.
  - right. reflexivity.
Defined.

(** X12 with [which] equal to 2. *)
Lemma X12_set_format_with_which_two :
  ar0144_set_format None (mk_subdev_format 2 0 framefmt_zero)
    (mk_world ar0144_kzalloc tt [])
  = Oops (mk_world ar0144_kzalloc tt ([] ++ [EvMutexLock]))
  /\ ar0144_get_format None (mk_subdev_format 2 0 framefmt_zero)
       (mk_world ar0144_kzalloc tt [])
     = Oops (mk_world ar0144_kzalloc tt ([] ++ [EvMutexLock])).
Proof.
  apply (X12_format_calls_with_bad_which unit None
           (mk_subdev_format 2 0 framefmt_zero) ar0144_kzalloc tt []).
  - discriminate.
  - discriminate.
Defined.

(** X14 on the first entry of both enumerations. *)
Lemma X14_first_entries_agree :
  fst (ar0144_enum_mbus_code None (mk_mbus_code_enum 0 0 0 1)) = 0
  /\ fst (ar0144_enum_frame_size None
            (mk_frame_size_enum 0 0 0x3012 0 0 0 0 1)) = 0
  /\ exists f,
       retval (ar0144_set_format None
                 (mk_subdev_format V4L2_SUBDEV_FORMAT_ACTIVE 0 framefmt_zero)
                 (mk_world ar0144_kzalloc tt []))
       = Some (0, f)
       /\ fmt_code (sf_format f)
          = mce_code (snd (ar0144_enum_mbus_code None
                             (mk_mbus_code_enum 0 0 0 1)))
       /\ fse_min_width (snd (ar0144_enum_frame_size None
                                (mk_frame_size_enum 0 0 0x3012 0 0 0 0 1)))
          = fmt_width (sf_format f)
       /\ fse_max_width (snd (ar0144_enum_frame_size None
                                (mk_frame_size_enum 0 0 0x3012 0 0 0 0 1)))
          = fmt_width (sf_format f)
       /\ fse_min_height (snd (ar0144_enum_frame_size None
                                 (mk_frame_size_enum 0 0 0x3012 0 0 0 0 1)))
          = fmt_height (sf_format f)
       /\ fse_max_height (snd (ar0144_enum_frame_size None
                                 (mk_frame_size_enum 0 0 0x3012 0 0 0 0 1)))
          = fmt_height (sf_format f).
Proof.
  apply (X14_enumeration_agrees_with_set_format unit None
           (mk_mbus_code_enum 0 0 0 1)
           (mk_frame_size_enum 0 0 0x3012 0 0 0 0 1)
           (mk_subdev_format V4L2_SUBDEV_FORMAT_ACTIVE 0 framefmt_zero)
           ar0144_kzalloc tt []).
  - reflexivity.
  - reflexivity.
  - reflexivity.
  - right. reflexivity.
Defined.

(** X15 at index 1 and with another code. *)
Lemma X15_second_entries_rejected :
  ar0144_enum_mbus_code None (mk_mbus_code_enum 0 1 0 1)
  = (- EINVAL, mk_mbus_code_enum 0 1 0 1)
  /\ ar0144_enum_frame_size None (mk_frame_size_enum 0 0 0x2008 0 0 0 0 1)
     = (- EINVAL, mk_frame_size_enum 0 0 0x2008 0 0 0 0 1).
Proof.
  pose proof (X15_enumeration_has_one_entry None
                (mk_mbus_code_enum 0 1 0 1)
                (mk_frame_size_enum 0 0 0x2008 0 0 0 0 1)
                ltac:(cbn; lia) ltac:(cbn; lia)) as (_ & H1 & _ & H2).
  split.
  - apply H1. discriminate.
  - apply H2. left. discriminate.
Defined.

(** X17 with a reset GPIO that is not there yet. *)
Lemma X17_probe_with_deferred_gpio :
  exists r d' evs,
    ar0144_probe ack_send (id_recv AR0144_ID_VAL)
      (mk_probe_env true true 0 V4L2_MBUS_CSI2 (- EPROBE_DEFER) 0 0)
      (mk_world ar0144_kzalloc tt [])
    = Done r (mk_world d' tt ([] ++ evs))
    /\ r = - EPROBE_DEFER
    /\ error_lines evs = []
    /\ filter is_bus_event evs = []
    /\ slept evs = 0.
Proof.
  destruct (X17_probe_early_failure_makes_no_transfer unit ack_send
              (id_recv AR0144_ID_VAL)
              (mk_probe_env true true 0 V4L2_MBUS_CSI2 (- EPROBE_DEFER) 0 0)
              ar0144_kzalloc tt [] eq_refl)
    as (r & d' & evs & E & _ & Hb & Hs & _ & Hdef).
  destruct (Hdef eq_refl eq_refl (Z.le_refl 0) eq_refl eq_refl) as [Hr He].
  exists r, d', evs. auto.
Defined.

(** X18 on a sensor with another identity: probe returns [-ENODEV]. *)
Lemma X18_probe_with_wrong_identity :
  exists rp b' ep,
    ar0144_s_power ack_send (id_recv 0x2406) 1 (mk_world ar0144_kzalloc tt [])
    = Done rp (mk_world ar0144_kzalloc b' ([] ++ ep))
    /\ rp <= 0
    /\ (rp < 0 ->
        ar0144_probe ack_send (id_recv 0x2406) probe_env_ok
          (mk_world ar0144_kzalloc tt [])
        = Done rp
            (mk_world ar0144_kzalloc b'
               ([] ++ ep ++ [ EvDevErr could_not_power_up;
                              EvMediaEntityCleanup ])))
    /\ (rp = 0 -> async_register_ret probe_env_ok < 0 ->
        ar0144_probe ack_send (id_recv 0x2406) probe_env_ok
          (mk_world ar0144_kzalloc tt [])
        = Done (async_register_ret probe_env_ok)
            (mk_world ar0144_kzalloc b'
               ([] ++ ep ++ [ EvDevInfoDetected;
                              EvDevErr could_not_register_v4l2_device;
                              EvMediaEntityCleanup ])))
    /\ (rp = 0 -> 0 <= async_register_ret probe_env_ok ->
        ar0144_probe ack_send (id_recv 0x2406) probe_env_ok
          (mk_world ar0144_kzalloc tt [])
        = Done 0
            (mk_world
               (mk_ar0144 (fixed_format framefmt_zero) rect_zero false) b'
               ([] ++ ep ++ [EvDevInfoDetected; EvMutexLock; EvMutexUnlock]))).
Proof.
  apply (X18_probe_after_preliminaries unit ack_send (id_recv 0x2406)
           probe_env_ok ar0144_kzalloc tt []).
  reflexivity.
Defined.

(** X19 on the acknowledging adapter. *)
Lemma X19_probe_on_ack_adapter :
  preliminaries_ok probe_env_ok = true
  /\ 0 <= async_register_ret probe_env_ok
  /\ (exists buf b2,
         bus_reads ack_send (id_recv AR0144_ID_VAL) tt AR0144_ID_REG
         = Some (buf, b2)
         /\ be16 buf = AR0144_ID_VAL
         /\ bus_accepts ack_send b2
              (frames_of ar0144at_rev4_recommended_setting) = true)
  /\ dev world_attached
     = mk_ar0144 (fixed_format framefmt_zero) rect_zero false
  /\ (forall cfg q, valid_which (sf_which q) ->
        retval (ar0144_get_format cfg q world_attached)
        = Some (0, mk_subdev_format (sf_which q) (sf_pad q)
                     (fixed_format framefmt_zero))).
Proof.
  apply (X19_probe_zero_means_verified unit ack_send (id_recv AR0144_ID_VAL)
           probe_env_ok ar0144_kzalloc tt [] world_attached).
  vm_compute. reflexivity.
Defined.
